(** * WaxJS: login and signing orchestration (src/index.ts)

    A shallow embedding of the [WaxJS] class: the whitelist evaluator as pure
    functions over the whitelist, the stateful methods as computations in a
    state-and-exception monad over the fields of [this], the browser's
    storage and a log of the calls made to the external collaborators
    (network, popup bridge, co-signer, transaction deserializer). *)

From Stdlib Require Import ZArith.
From stdpp Require Import base option list strings gmap.

Open Scope string_scope.
Open Scope list_scope.

(** ** Data model *)

(** An entry of the whitelist ([IWhitelistedContract]).
    Modelled from the spec: the interface declaration is imported by
    index.ts from ./IWhitelistedContract; the data model gives it a contract
    and an optional sequence of recipients ([None] is an absent field). *)
Record WhitelistEntry := mkEntry {
  contract : string;
  recipients : option (list string)
}.

(** A deserialized action: [data] is the action's payload object, read
    through its properties ([action.data.to]). *)
Record Action := mkAction {
  account : string;
  name : string;
  data : gmap string string
}.

(** A transaction as the callers hand it over: already in action form
    ([transaction.actions] is an array) or the serialized bytes. *)
Inductive Transaction :=
| TxActions (actions : list Action)
| TxSerialized (bytes : list Z).

(** [data.processed] of an endpoint response body. *)
Record Processed := mkProcessed { except : option string }.

(** [event.data]: the payload of a popup message or of an endpoint response
    body. Every property the handlers read is a field, with the type the
    message contract gives it; [None] is an absent (undefined or null)
    property. *)
Module Data.
Record t := mk {
  type : option string;
  verified : option bool;
  userAccount : option string;
  pubKeys : option (list string);
  signatures : option (list string);
  serializedTransaction : option (list Z);
  whitelistedContracts : option (list WhitelistEntry);
  autoLogin : option bool;
  processed : option Processed
}.
End Data.
Abbreviation EventData := Data.t.

(** The errors the class raises, one constructor per [throw] with its
    message, and the errors of the runtime and of the collaborators. *)
Inductive Error :=
| LoginDeclined               (* User declined to share their user account *)
| NoBlockchainAccount         (* User does not have a blockchain account *)
| LoginEndpointError (status : Z) (statusText : string)
| SigningDeclined             (* User declined to sign the transaction *)
| SigningEndpointError (status : Z) (statusText : string)
| EndpointExcept (body : EventData)              (* new Error(data) *)
| UnexpectedSigningResponse (payload : EventData)
| TypeError (what : string)
| ExternalError (what : string).

(** The outcome of an expression that may throw. *)
Inductive Result (A : Type) :=
| Ok (a : A)
| Err (e : Error).
Arguments Ok {A} a.
Arguments Err {A} e.

#[global] Instance Result_ret : MRet Result := λ A a, Ok a.
#[global] Instance Result_bind : MBind Result := λ A B f r,
  match r with
  | Ok a => f a
  | Err e => Err e
  end.

Definition is_Ok {A} (r : Result A) : Prop := ∃ a, r = Ok a.

(** [Array.prototype.find] with a callback that may throw or have effects:
    the first element on which the callback is true; an exception of the
    callback ends the search. *)
Fixpoint find {M : Type → Type} `{!MBind M, !MRet M} {A}
    (f : A → M bool) (l : list A) : M (option A) :=
  match l with
  | [] => mret None
  | x :: l' => b ← f x; if b : bool then mret (Some x) else find f l'
  end.

(** JavaScript truthiness of an optional string and of an optional flag. *)
Definition truthyString (o : option string) : bool :=
  match o with
  | Some s => negb (bool_decide (s = ""))
  | None => false
  end.

Definition truthyFlag (o : option bool) : bool := default false o.

(** ** Whitelist evaluator *)

Module Evaluator.

(** [recipients.includes(to)]: [to] is the value of the property, undefined
    when the payload has none; a sequence of strings never includes
    undefined. *)
Definition includes (rs : list string) (to : option string) : bool :=
  match to with
  | Some t => bool_decide (t ∈ rs)
  | None => false
  end.

(** The callback of [isWhitelisted]. *)
Definition matchEntry (action : Action) (w : WhitelistEntry) : Result bool :=
  if decide (contract w = account action) then
    if decide (account action = "eosio.token" ∧ name action = "transfer") then
      match recipients w with
      | Some rs => Ok (includes rs (data action !! "to"))
      | None => Err (TypeError "w.recipients is undefined")
      end
    else Ok true
  else Ok false.

(** [isWhitelisted(action)] over an explicit whitelist: [!!find(...)]. *)
Definition isWhitelisted (whitelist : list WhitelistEntry) (action : Action)
  : Result bool :=
  found ← find (matchEntry action) whitelist;
  Ok (bool_decide (is_Some found)).

End Evaluator.

(** *** The evaluator's contract, in the words of the specification *)

Definition isTokenTransfer (a : Action) : Prop :=
  account a = "eosio.token" ∧ name a = "transfer".

(** The entry lists the destination of the transfer. *)
Definition listsRecipient (a : Action) (w : WhitelistEntry) : Prop :=
  ∃ rs t, recipients w = Some rs ∧ data a !! "to" = Some t ∧ t ∈ rs.

Definition approves (a : Action) (w : WhitelistEntry) : Prop :=
  contract w = account a ∧ (isTokenTransfer a → listsRecipient a w).

Definition approved (wl : list WhitelistEntry) (a : Action) : Prop :=
  ∃ w, w ∈ wl ∧ approves a w.

(** Every entry for the token contract has its recipients. *)
Definition recipientsDefined (wl : list WhitelistEntry) : Prop :=
  ∀ w, w ∈ wl → contract w = "eosio.token" → is_Some (recipients w).

Definition tokenEntry (rs : option (list string)) : WhitelistEntry :=
  mkEntry "eosio.token" rs.

Definition transferTo (t : string) : Action :=
  mkAction "eosio.token" "transfer" {[ "to" := t ]}.

(** ** The browser and the collaborators *)

(** A window handle. *)
Definition Window := nat.

(** [txArgs]: what the signature provider hands to the router. *)
Record SigningRequest := mkRequest {
  transaction : Transaction;
  waxPaysBW : bool
}.

(** The object the transaction-submission layer passes to a signature
    provider's [sign]. It lives in the heap: [sign] writes to it and hands
    the same object on to the co-signer. *)
Module Args.
Record t := mk {
  chainId : string;
  requiredKeys : list string;
  serializedTransaction : option (list Z)
}.
End Args.
Abbreviation SignatureProviderArgs := Args.t.

(** What the router returns: the signed transaction, or the empty array
    that [receiveSignatures] returns on a handshake. *)
Inductive SignResponse :=
| Signed (signatures : list string) (serializedTransaction : list Z)
| Empty.

(** The external co-signer ([apiSigner]): what its two methods answer. A
    [None] answer is an undefined result. *)
Record SignatureProvider := mkProvider {
  signerKeys : Result (option (list string));
  signerSign : SignatureProviderArgs → Result (option (list string))
}.

(** Calls that leave the class, in the order they are made. *)
Inductive Event :=
| EvFetch (url method : string) (body : option SigningRequest)
| EvOpenEventSource (url : string) (payload : option SigningRequest)
    (win : option Window)
| EvOnceEvent (win : Window) (origin : string)
| EvWindowOpen (url : string)
| EvDeserialize (bytes : list Z)
| EvSignerKeys
| EvSignerSign (args : SignatureProviderArgs).

(** The answer of [fetch]: a rejection, or a response whose [json()] gives
    the body or rejects. *)
Inductive FetchOutcome :=
| FetchRejected (e : Error)
| FetchResponse (ok : bool) (status : Z) (statusText : string)
    (json : Result EventData).

(** The collaborators, each an answer to a call given the calls made so
    far: the browser's [fetch] and [window.open], the popup bridge
    ([WaxEventSource], imported from ./WaxEventSource) and the deserializer
    of the transaction-submission library. [onceEventDelivers] is the one
    message the bridge delivers to the handler, or its rejection. *)
Record Env := mkEnv {
  fetch : list Event → string → string → option SigningRequest → FetchOutcome;
  openEventSource :
    list Event → string → option SigningRequest → option Window → Result Window;
  onceEventDelivers : list Event → Window → string → Result EventData;
  windowOpen : list Event → string → option Window;
  deserializeTransactionWithActions :
    list Event → list Z → Result (list Action)
}.

(** The fields of [this], the browser's storage, the heap of request
    objects and the log of outgoing calls. *)
Record State := mkState {
  userAccount : option string;
  pubKeys : option (list string);
  signingWindow : option Window;
  whitelistedContracts : option (list WhitelistEntry);
  apiSigner : option SignatureProvider;
  waxSigningURL : string;
  waxAutoSigningURL : string;
  api : bool;
  localStorage : gmap string string;
  heap : gmap nat SignatureProviderArgs;
  trace : list Event
}.

Definition set_whitelistedContracts (v : option (list WhitelistEntry))
    (s : State) : State :=
  mkState (userAccount s) (pubKeys s) (signingWindow s) v (apiSigner s)
    (waxSigningURL s) (waxAutoSigningURL s) (api s) (localStorage s) (heap s)
    (trace s).

Definition set_session (u : option string) (ks : option (list string))
    (s : State) : State :=
  mkState u ks (signingWindow s) (whitelistedContracts s) (apiSigner s)
    (waxSigningURL s) (waxAutoSigningURL s) (api s) (localStorage s) (heap s)
    (trace s).


Definition set_api (b : bool) (s : State) : State :=
  mkState (userAccount s) (pubKeys s) (signingWindow s)
    (whitelistedContracts s) (apiSigner s) (waxSigningURL s)
    (waxAutoSigningURL s) b (localStorage s) (heap s) (trace s).

Definition set_localStorage (m : gmap string string) (s : State) : State :=
  mkState (userAccount s) (pubKeys s) (signingWindow s)
    (whitelistedContracts s) (apiSigner s) (waxSigningURL s)
    (waxAutoSigningURL s) (api s) m (heap s) (trace s).

Definition set_heap (h : gmap nat SignatureProviderArgs) (s : State) : State :=
  mkState (userAccount s) (pubKeys s) (signingWindow s)
    (whitelistedContracts s) (apiSigner s) (waxSigningURL s)
    (waxAutoSigningURL s) (api s) (localStorage s) h (trace s).

Definition log (ev : Event) (s : State) : State :=
  mkState (userAccount s) (pubKeys s) (signingWindow s)
    (whitelistedContracts s) (apiSigner s) (waxSigningURL s)
    (waxAutoSigningURL s) (api s) (localStorage s) (heap s) (trace s ++ [ev]).

(** ** The monad of the methods: state and exceptions *)

Definition M (A : Type) : Type := State → Result A * State.

#[global] Instance M_ret : MRet M := λ A a s, (Ok a, s).
#[global] Instance M_bind : MBind M := λ A B f m s,
  match m s with
  | (Ok a, s') => f a s'
  | (Err e, s') => (Err e, s')
  end.

Definition throw {A} (e : Error) : M A := λ s, (Err e, s).
Definition gets {A} (f : State → A) : M A := λ s, (Ok (f s), s).
Definition modify (f : State → State) : M unit := λ s, (Ok tt, f s).
Definition lift {A} (r : Result A) : M A := λ s, (r, s).

(** [try { m } catch (e) { h e }] *)
Definition tryCatch {A} (m : M A) (h : Error → M A) : M A := λ s,
  match m s with
  | (Ok a, s') => (Ok a, s')
  | (Err e, s') => h e s'
  end.

(** A call of an async function whose promise is passed on as a value: the
    body runs, and its outcome is what the promise settles to. *)
Definition promise {A} (m : M A) : M (Result A) := λ s,
  (Ok (fst (m s)), snd (m s)).

(** A call to a collaborator: its answer depends on the calls so far, and
    the call is logged. *)
Definition call {A} (answer : list Event → A) (ev : Event) : M A := λ s,
  (Ok (answer (trace s)), log ev s).

(** [Uint8Array.from]: every element is wrapped to a byte. *)
Definition Uint8Array_from (l : list Z) : list Z := (λ z, z `mod` 256)%Z <$> l.

(** String coercion of the [autoLogin] property by [localStorage.setItem]. *)
Definition toStorageString (o : option bool) : string :=
  match o with
  | Some true => "true"
  | Some false => "false"
  | None => "undefined"
  end.

(** The constructor's argument; an absent property is [None]. *)
Module Config.
Record t := mk {
  rpcEndpoint : string;
  tryAutoLogin : option bool;
  userAccount : option string;
  pubKeys : option (list string);
  apiSigner : option SignatureProvider;
  waxSigningURL : option string;
  waxAutoSigningURL : option string
}.
End Config.

(** ** The class *)

Module WaxJS.
Section Methods.

Context (env : Env).

(** [this.userAccount && Array.isArray(this.pubKeys)] *)
Definition hasSession (u : option string) (ks : option (list string)) : bool :=
  truthyString u && bool_decide (is_Some ks).

(** [data.processed && data.processed.except] *)
Definition hasExcept (d : EventData) : bool :=
  match Data.processed d with
  | Some p => truthyString (except p)
  | None => false
  end.

(** Modelled from the spec: [WaxEventSource.onceEvent] is imported from
    ./WaxEventSource, which is not among the sources. It resolves with the
    handler's return value after exactly one qualifying message, and rejects
    if the window is closed or an error occurs. *)
Definition onceEvent {A} (win : Window) (origin : string)
    (handler : EventData → M A) : M A :=
  delivery ← call (λ h, onceEventDelivers env h win origin)
                  (EvOnceEvent win origin);
  match delivery with
  | Ok d => handler d
  | Err e => throw e
  end.

Definition isWhitelisted (action : Action) : M bool :=
  wl ← gets whitelistedContracts;
  match wl with
  | Some whitelist => lift (Evaluator.isWhitelisted whitelist action)
  | None => throw (TypeError "this.whitelistedContracts is undefined")
  end.

Definition canAutoSign (tx : Transaction) : M bool :=
  actions ←
    match tx with
    | TxActions actions => mret actions
    | TxSerialized bytes =>
        ready ← gets api;
        if ready : bool then
          r ← call (λ h, deserializeTransactionWithActions env h bytes)
                   (EvDeserialize bytes);
          lift r
        else throw (TypeError "this.api is undefined")
    end;
  found ← find (λ action, b ← isWhitelisted action; mret (negb b)) actions;
  mret (negb (bool_decide (is_Some found))).

Definition receiveSignatures (d : EventData) : M SignResponse :=
  if decide (Data.type d = Some "TX_SIGNED") then
    match truthyFlag (Data.verified d), Data.signatures d with
    | true, Some signatures =>
        modify (set_whitelistedContracts
                  (Some (default [] (Data.whitelistedContracts d))));;
        match Data.serializedTransaction d with
        | Some bytes => mret (Signed signatures (Uint8Array_from bytes))
        | None => throw (TypeError "undefined is not iterable")
        end
    | _, _ => throw SigningDeclined
    end
  else if decide (Data.type d ≠ Some "READY") then
    throw (UnexpectedSigningResponse d)
  else mret Empty.

Definition signViaWindow (window : option Window) (txArgs : SigningRequest)
  : M SignResponse :=
  url ← gets waxSigningURL;
  opened ← call (λ h, openEventSource env h (url +:+ "/cloud-wallet/signing/")
                        (Some txArgs) window)
                (EvOpenEventSource (url +:+ "/cloud-wallet/signing/")
                   (Some txArgs) window);
  confirmationWindow ← lift opened;
  onceEvent confirmationWindow url receiveSignatures.

(** The last statement of the [try] block returns the promise of
    [receiveSignatures] without awaiting it: the handler has run by then,
    but its rejection settles the promise of [signViaEndpoint] from outside
    the block, where the [catch] clause does not see it. *)
Definition signViaEndpoint (txArgs : SigningRequest) : M SignResponse :=
  returned ← tryCatch
    (url ← gets waxAutoSigningURL;
     response ← call (λ h, fetch env h (url +:+ "signing") "POST" (Some txArgs))
                     (EvFetch (url +:+ "signing") "POST" (Some txArgs));
     match response with
     | FetchRejected e => throw e
     | FetchResponse ok status statusText json =>
         if negb ok then throw (SigningEndpointError status statusText)
         else
           d ← lift json;
           if hasExcept d then throw (EndpointExcept d)
           else promise (receiveSignatures d)
     end)
    (λ e, modify (set_whitelistedContracts (Some []));; throw e);
  lift returned.

Definition signing (txArgs : SigningRequest) : M SignResponse :=
  auto ← canAutoSign (transaction txArgs);
  if auto : bool then
    tryCatch (signViaEndpoint txArgs) (λ _, signViaWindow None txArgs)
  else
    window ← gets signingWindow;
    signViaWindow window txArgs.

(** [signatureProvider.getAvailableKeys] *)
Definition getAvailableKeys : M (list string) :=
  own ← gets pubKeys;
  match own with
  | None => throw (TypeError "this.pubKeys is not iterable")
  | Some keys =>
      signer ← gets apiSigner;
      match signer with
      | None => mret keys
      | Some p =>
          r ← call (λ _, signerKeys p) EvSignerKeys;
          more ← lift r;
          mret (keys ++ default [] more)
      end
  end.

(** [signatureProvider.sign(data)]: [data] is the address of the caller's
    request object. *)
Definition sign (data : nat) : M (list Z * list string) :=
  h ← gets heap;
  match h !! data with
  | None => throw (TypeError "data is undefined")
  | Some d =>
      match Args.serializedTransaction d with
      | None =>
          (* canAutoSign reads [transaction.actions] of undefined *)
          throw (TypeError "transaction is undefined")
      | Some bytes =>
          signer ← gets apiSigner;
          r ← signing (mkRequest (TxSerialized bytes)
                         (negb (bool_decide (is_Some signer))));
          let wallet :=
            match r with
            | Signed signatures tx => Some (signatures, tx)
            | Empty => None
            end in
          modify (λ s, set_heap
            (<[data := Args.mk (Args.chainId d) (Args.requiredKeys d)
                         (snd <$> wallet)]> (heap s)) s);;
          match wallet with
          | None => throw (TypeError "signatures is not iterable")
          | Some (signatures, tx) =>
              signer' ← gets apiSigner;
              match signer' with
              | None => mret (tx, signatures)
              | Some p =>
                  h' ← gets heap;
                  match h' !! data with
                  | None => throw (TypeError "data is undefined")
                  | Some d' =>
                      r' ← call (λ _, signerSign p d') (EvSignerSign d');
                      more ← lift r';
                      mret (tx, signatures ++ default [] more)
                  end
              end
          end
      end
  end.

Definition receiveLogin (d : EventData) : M string :=
  if negb (truthyFlag (Data.verified d)) then throw LoginDeclined
  else
    match Data.userAccount d, Data.pubKeys d with
    | Some account, Some keys =>
        modify (λ s, set_localStorage
          (<["autoLogin" := toStorageString (Data.autoLogin d)]>
             (localStorage s)) s);;
        modify (set_whitelistedContracts
                  (Some (default [] (Data.whitelistedContracts d))));;
        modify (set_session (Some account) (Some keys));;
        modify (set_api true);;
        mret account
    | _, _ => throw NoBlockchainAccount
    end.


Definition loginViaWindow : M string :=
  url ← gets waxSigningURL;
  opened ← call (λ h, openEventSource env h (url +:+ "/cloud-wallet/login/")
                        None None)
                (EvOpenEventSource (url +:+ "/cloud-wallet/login/") None None);
  confirmationWindow ← lift opened;
  onceEvent confirmationWindow url receiveLogin.

Definition loginViaEndpoint : M string :=
  url ← gets waxAutoSigningURL;
  response ← call (λ h, fetch env h (url +:+ "login") "get" None)
                  (EvFetch (url +:+ "login") "get" None);
  match response with
  | FetchRejected e => throw e
  | FetchResponse ok status statusText json =>
      if negb ok then throw (LoginEndpointError status statusText)
      else
        d ← lift json;
        if hasExcept d then throw (EndpointExcept d)
        else receiveLogin d
  end.

Definition login : M string :=
  u ← gets userAccount;
  ks ← gets pubKeys;
  if hasSession u ks then mret (default "" u) else loginViaWindow.

Definition isAutoLoginAvailable : M bool :=
  u ← gets userAccount;
  ks ← gets pubKeys;
  if hasSession u ks then mret true
  else tryCatch (loginViaEndpoint;; mret true) (λ _, mret false).

(** The object before the constructor's body runs. *)
Definition fresh (cfg : Config.t) : State :=
  mkState None None None None (Config.apiSigner cfg)
    (default "https://all-access.wax.io" (Config.waxSigningURL cfg))
    (default "https://api-idm.wax.io/v1/accounts/auto-accept/"
       (Config.waxAutoSigningURL cfg))
    false ∅ ∅ [].

(** The constructor. Its calls to [receiveLogin] and [loginViaEndpoint] are
    not awaited and their outcome is dropped; the task they start is run to
    its end here. *)
Definition constructor (cfg : Config.t) : State :=
  let s := fresh cfg in
  if hasSession (Config.userAccount cfg) (Config.pubKeys cfg) then
    snd (receiveLogin
           (Data.mk None (Some true) (Config.userAccount cfg)
              (Config.pubKeys cfg) None None None None None) s)
  else if default true (Config.tryAutoLogin cfg) then snd (loginViaEndpoint s)
  else s.

End Methods.
End WaxJS.

(** ** Sample inputs *)

(** Two entries for the token contract, the one without recipients first,
    and the same two the other way round. *)
Definition absentFirst : list WhitelistEntry :=
  [tokenEntry None; tokenEntry (Some ["bob"])].

Definition absentLast : list WhitelistEntry :=
  [tokenEntry (Some ["bob"]); tokenEntry None].

(** A transfer whose payload names no destination. *)
Definition transferNowhere : Action := mkAction "eosio.token" "transfer" ∅.


(** The payloads of the scenarios. *)
Definition declinedData : EventData :=
  Data.mk (Some "TX_SIGNED") (Some false) None None None None None None None.

Definition signedData : EventData :=
  Data.mk (Some "TX_SIGNED") (Some true) None None (Some ["SIG1"])
    (Some [1; 2; 3]%Z) (Some []) None None.

Definition readyData : EventData :=
  Data.mk (Some "READY") None None None None None None None None.

Definition loginData : EventData :=
  Data.mk None (Some true) (Some "alice") (Some ["PUB_K1"]) None None None
    None None.

(** A session for alice that trusts the contract dapp. *)
Definition dappSession : State :=
  mkState (Some "alice") (Some ["PUB_K1"]) None (Some [mkEntry "dapp" None])
    None "https://all-access.wax.io"
    "https://api-idm.wax.io/v1/accounts/auto-accept/" true ∅ ∅ [].


(** A body with none of the properties the handlers know. *)
Definition unknownData : EventData :=
  Data.mk None None None None None None None None None.

(** The signing popups asked for in a log: the window handed to each. *)
Definition signingPopups (t : list Event) : list (option Window) :=
  omap (λ ev, match ev with
              | EvOpenEventSource _ (Some _) w => Some w
              | _ => None
              end) t.

(** The ways the signing endpoint fails before its body is handed to
    [receiveSignatures]: the request is rejected, the status is not OK, the
    body cannot be read, or the body has [processed.except]. *)
Definition endpointFails (out : FetchOutcome) : Prop :=
  match out with
  | FetchRejected _ => True
  | FetchResponse ok _ _ json =>
      ok = false ∨ match json with
                   | Err _ => True
                   | Ok d => WaxJS.hasExcept d = true
                   end
  end.

(** A backend that answers 200 with an unknown body, and a popup in which
    the user declines. *)
Definition garbledEnv : Env :=
  mkEnv (λ _ _ _ _, FetchResponse true 200 "OK" (Ok unknownData))
        (λ _ _ _ _, Ok 7)
        (λ _ _ _, Ok declinedData)
        (λ _ _, Some 7)
        (λ _ _, Ok [mkAction "dapp" "play" ∅]).

(** A backend that is down, and a popup in which the user signs. *)
Definition offlineEnv : Env :=
  mkEnv (λ _ _ _ _, FetchRejected (ExternalError "Failed to fetch"))
        (λ _ _ _ _, Ok 7)
        (λ _ _ _, Ok signedData)
        (λ _ _, Some 7)
        (λ _ _, Ok [mkAction "dapp" "play" ∅]).

Definition dappRequest : SigningRequest :=
  mkRequest (TxActions [mkAction "dapp" "play" ∅]) true.

Ltac run :=
  unfold mbind, M_bind, mret, M_ret, throw, gets, modify, lift, tryCatch,
    call, promise; cbn.


(** A computation that leaves the co-signer and the heap of request objects
    alone. *)
Definition keeps {A} (m : M A) : Prop :=
  ∀ s, apiSigner (snd (m s)) = apiSigner s ∧ heap (snd (m s)) = heap s.

(** A co-signer with one key, and alice's session with that co-signer and
    one request object at address 0. *)
Definition cosigner : SignatureProvider :=
  mkProvider (Ok (Some ["PUB_K2"])) (λ _, Ok (Some ["SIG2"])).

Definition cosignedSession : State :=
  mkState (Some "alice") (Some ["PUB_K1"]) None (Some [mkEntry "dapp" None])
    (Some cosigner) "https://all-access.wax.io"
    "https://api-idm.wax.io/v1/accounts/auto-accept/" true ∅
    {[ 0 := Args.mk "chain" ["PUB_K1"; "PUB_K2"] (Some [9; 9]%Z) ]} [].


(** A popup that answers with the handshake. *)
Definition readyEnv : Env :=
  mkEnv (λ _ _ _ _, FetchRejected (ExternalError "Failed to fetch"))
        (λ _ _ _ _, Ok 7)
        (λ _ _ _, Ok readyData)
        (λ _ _, Some 7)
        (λ _ _, Ok [mkAction "dapp" "play" ∅]).

(** A co-signer whose key enumeration throws, and alice's session with
    it. *)
Definition lockedCosigner : SignatureProvider :=
  mkProvider (Err (ExternalError "key store is locked")) (λ _, Ok None).

Definition lockedSession : State :=
  mkState (Some "alice") (Some ["PUB_K1"]) None (Some [])
    (Some lockedCosigner) "https://all-access.wax.io"
    "https://api-idm.wax.io/v1/accounts/auto-accept/" true ∅ ∅ [].


(** The endpoints fetched in a log. *)
Definition fetched (t : list Event) : list string :=
  omap (λ ev, match ev with
              | EvFetch url _ _ => Some url
              | _ => None
              end) t.

(** What the signing path has no business with: the account, its keys, the
    cached popup, the submission object, the storage and the addresses. *)
Definition session (s : State) :
    option string * option (list string) * option Window * bool
    * gmap string string * string * string :=
  (userAccount s, pubKeys s, signingWindow s, api s, localStorage s,
   waxSigningURL s, waxAutoSigningURL s).

(** A computation that leaves a view of the state as it was. *)
Definition preserves {A B} (view : State → B) (m : M A) : Prop :=
  ∀ s, view (snd (m s)) = view s.

(** An object on which the constructor's body has not run yet. *)
Definition blankSession : State :=
  mkState None None None None None "https://all-access.wax.io"
    "https://api-idm.wax.io/v1/accounts/auto-accept/" false ∅ ∅ [].

(** A login payload whose account is the empty string. *)
Definition namelessData : EventData :=
  Data.mk None (Some true) (Some "") (Some ["PUB_K1"]) None None None None
    None.

(** A verified TX_SIGNED payload without the transaction. *)
Definition headlessData : EventData :=
  Data.mk (Some "TX_SIGNED") (Some true) None None (Some ["SIG1"]) None
    (Some [mkEntry "other" None]) None None.

(** A backend that logs alice in and signs, and a popup that does both as
    well, whichever handler listens. *)
Definition acceptingData : EventData :=
  Data.mk (Some "TX_SIGNED") (Some true) (Some "alice") (Some ["PUB_K1"])
    (Some ["SIG1"]) (Some [1; 2; 3]%Z) (Some [mkEntry "dapp" None]) (Some true)
    None.

Definition acceptingEnv : Env :=
  mkEnv (λ _ _ _ _, FetchResponse true 200 "OK" (Ok acceptingData))
        (λ _ _ _ _, Ok 7)
        (λ _ _ _, Ok acceptingData)
        (λ _ _, Some 7)
        (λ _ _, Ok [mkAction "dapp" "play" ∅]).

(** A co-signer that refuses to sign. *)
Definition refusingCosigner : SignatureProvider :=
  mkProvider (Ok (Some ["PUB_K2"])) (λ _, Err (ExternalError "refused")).

Definition refusedSession : State :=
  mkState (Some "alice") (Some ["PUB_K1"]) None (Some [mkEntry "dapp" None])
    (Some refusingCosigner) "https://all-access.wax.io"
    "https://api-idm.wax.io/v1/accounts/auto-accept/" true ∅
    {[ 0 := Args.mk "chain" ["PUB_K1"; "PUB_K2"] (Some [9; 9]%Z) ]} [].


(** A session that trusts nothing, with one request object at address 0 and
    no co-signer. *)
Definition guardedSession : State :=
  mkState (Some "alice") (Some ["PUB_K1"]) None (Some []) None
    "https://all-access.wax.io"
    "https://api-idm.wax.io/v1/accounts/auto-accept/" true ∅
    {[ 0 := Args.mk "chain" ["PUB_K1"] (Some [9; 9]%Z) ]} [].

(** * Properties *)

(** ** [find] *)

Lemma find_Some_inv {A} (f : A → Result bool) (l : list A) (x : A) :
  find f l = Ok (Some x) → x ∈ l ∧ f x = Ok true.
Proof.
  induction l as [|y l IH]; cbn; [discriminate|].
  destruct (f y) as [[|]|e] eqn:Hy; cbn; intros H.
  - injection H as ->. split; [left | done].
  - destruct (IH H) as [Hin Hx]. split; [by right | done].
  - discriminate.
Qed.

Lemma find_None_inv {A} (f : A → Result bool) (l : list A) :
  find f l = Ok None → ∀ x, x ∈ l → f x = Ok false.
Proof.
  induction l as [|y l IH]; cbn; intros H x Hx.
  - by apply elem_of_nil in Hx.
  - destruct (f y) as [[|]|e] eqn:Hy; cbn in H; try discriminate.
    apply elem_of_cons in Hx as [->|Hx]; [done | by apply IH].
Qed.

Lemma find_total {A} (f : A → Result bool) (l : list A) :
  (∀ x, x ∈ l → is_Ok (f x)) → is_Ok (find f l).
Proof.
  induction l as [|y l IH]; cbn; intros H; [by eexists|].
  destruct (H y) as [b Hy]; [left|]. rewrite Hy. destruct b; cbn.
  - by eexists.
  - apply IH. intros x Hx. apply H. by right.
Qed.

(** A callback that only reads the state leaves it as it is. *)
Lemma find_reads {A} (f : A → M bool) (g : A → Result bool) (l : list A)
    (s : State) :
  (∀ x, f x s = (g x, s)) → find f l s = (find g l, s).
Proof.
  intros Hf. induction l as [|y l IH]; cbn; [done|].
  unfold mbind, M_bind, Result_bind. rewrite Hf.
  destruct (g y) as [[|]|e]; cbn; done.
Qed.

(** ** The whitelist evaluator *)

Lemma matchEntry_approves (a : Action) (w : WhitelistEntry) (b : bool) :
  Evaluator.matchEntry a w = Ok b → (b = true ↔ approves a w).
Proof.
  unfold Evaluator.matchEntry, approves, isTokenTransfer, listsRecipient.
  destruct (decide (contract w = account a)) as [Hc|Hc].
  - destruct (decide (account a = "eosio.token" ∧ name a = "transfer"))
      as [Ht|Ht].
    + destruct (recipients w) as [rs|]; [|discriminate].
      intros [= <-]. unfold Evaluator.includes.
      destruct (data a !! "to") as [t|].
      * rewrite bool_decide_eq_true. split.
        -- intros Hin. split; [done|]. intros _. by exists rs, t.
        -- intros [_ H]. destruct (H Ht) as (rs' & t' & [= <-] & [= <-] & Hin).
           done.
      * split; [discriminate|]. intros [_ H].
        destruct (H Ht) as (? & ? & _ & ? & _). discriminate.
    + intros [= <-]. split; [|done]. intros _. split; [done|]. tauto.
  - intros [= <-]. split; [discriminate|]. intros [? _]. done.
Qed.

Lemma matchEntry_defined (a : Action) (w : WhitelistEntry) :
  (isTokenTransfer a → contract w = "eosio.token" → is_Some (recipients w)) →
  is_Ok (Evaluator.matchEntry a w).
Proof.
  unfold Evaluator.matchEntry, isTokenTransfer. intros H.
  destruct (decide (contract w = account a)) as [Hc|Hc]; [|by eexists].
  destruct (decide (account a = "eosio.token" ∧ name a = "transfer"))
    as [Ht|Ht]; [|by eexists].
  destruct (H Ht) as [rs ->]; [by rewrite Hc; apply Ht | by eexists].
Qed.

(** Whenever [isWhitelisted] answers true, an entry approves the action. *)
Lemma isWhitelisted_sound (wl : list WhitelistEntry) (a : Action) :
  Evaluator.isWhitelisted wl a = Ok true → approved wl a.
Proof.
  unfold Evaluator.isWhitelisted.
  destruct (find (Evaluator.matchEntry a) wl) as [[w|]|e] eqn:Hf; cbn;
    try discriminate.
  intros _. apply find_Some_inv in Hf as [Hin Hw].
  exists w. split; [done|]. by apply (matchEntry_approves a w true).
Qed.

(** Whenever it answers false, no entry approves the action. *)
Lemma isWhitelisted_complete (wl : list WhitelistEntry) (a : Action) :
  Evaluator.isWhitelisted wl a = Ok false → ¬ approved wl a.
Proof.
  unfold Evaluator.isWhitelisted.
  destruct (find (Evaluator.matchEntry a) wl) as [[w|]|e] eqn:Hf; cbn;
    try discriminate.
  intros _ (w & Hin & Hw).
    pose proof (find_None_inv _ _ Hf w Hin) as Hm.
    apply (matchEntry_approves a w false) in Hm. by apply Hm in Hw.
Qed.

Lemma isWhitelisted_total (wl : list WhitelistEntry) (a : Action) :
  (isTokenTransfer a → recipientsDefined wl) →
  is_Ok (Evaluator.isWhitelisted wl a).
Proof.
  intros H. unfold Evaluator.isWhitelisted.
  destruct (find_total (Evaluator.matchEntry a) wl) as [r ->].
  - intros w Hw. apply matchEntry_defined. intros Ht. by apply H.
  - cbn. by eexists.
Qed.

Lemma isWhitelisted_error (wl : list WhitelistEntry) (a : Action) (e : Error) :
  Evaluator.isWhitelisted wl a = Err e →
  e = TypeError "w.recipients is undefined".
Proof.
  unfold Evaluator.isWhitelisted.
  destruct (find (Evaluator.matchEntry a) wl) as [r|e'] eqn:Hf; cbn;
    [discriminate|].
  intros [= <-]. revert Hf.
  induction wl as [|w wl IH]; cbn; [discriminate|].
  destruct (Evaluator.matchEntry a w) as [[|]|e''] eqn:Hw; cbn;
    [discriminate | exact IH |].
  intros [= <-]. revert Hw. unfold Evaluator.matchEntry.
  repeat case_decide; try discriminate.
  destruct (recipients w); [discriminate|]. by intros [= <-].
Qed.

Lemma isWhitelisted_not_false (wl : list WhitelistEntry) (a : Action) :
  isTokenTransfer a →
  (∃ w, w ∈ wl ∧ contract w = "eosio.token" ∧ recipients w = None) →
  Evaluator.isWhitelisted wl a ≠ Ok false.
Proof.
  intros Ht (w & Hin & Hc & Hr). unfold Evaluator.isWhitelisted.
  destruct (find (Evaluator.matchEntry a) wl) as [[w'|]|e] eqn:Hf; cbn;
    try discriminate.
  pose proof (find_None_inv _ _ Hf w Hin) as Hw. revert Hw.
  unfold Evaluator.matchEntry. rewrite Hr.
  destruct Ht as [Ha Hn].
  rewrite decide_True by congruence. rewrite decide_True by done.
  discriminate.
Qed.

(** C1, as amended: on every action other than a token transfer, and on a
    token transfer checked against a whitelist whose entries for the token
    contract all have their recipients, [isWhitelisted] returns, and it
    returns true iff some entry's contract equals the action's account and,
    for a token transfer, that entry lists the destination among its
    recipients; for any other action a contract match alone decides,
    whatever the payload. *)
Theorem isWhitelisted_spec (wl : list WhitelistEntry) (a : Action) :
  (isTokenTransfer a → recipientsDefined wl) →
  ∃ b, Evaluator.isWhitelisted wl a = Ok b
       ∧ (b = true ↔ approved wl a)
       ∧ (¬ isTokenTransfer a →
          (b = true ↔ ∃ w, w ∈ wl ∧ contract w = account a)).
Proof.
  intros H. destruct (isWhitelisted_total wl a H) as [b Hb].
  assert (b = true ↔ approved wl a) as Hiff.
  { destruct b.
    - split; [intros _; by apply isWhitelisted_sound | done].
    - split; [discriminate|]. intros Ha.
      by apply isWhitelisted_complete in Hb. }
  exists b. split; [done|]. split; [done|].
  intros Hn. rewrite Hiff. unfold approved, approves.
  split; intros (w & Hin & Hw); exists w; split; try done.
  by destruct Hw.
Qed.

Lemma isWhitelisted_spec_witness :
  ∃ b, Evaluator.isWhitelisted [tokenEntry (Some ["bob"])] (transferTo "bob")
         = Ok b
       ∧ (b = true ↔ approved [tokenEntry (Some ["bob"])] (transferTo "bob"))
       ∧ (¬ isTokenTransfer (transferTo "bob") →
          (b = true ↔ ∃ w, w ∈ [tokenEntry (Some ["bob"])]
                           ∧ contract w = account (transferTo "bob"))).
Proof.
  apply (isWhitelisted_spec [tokenEntry (Some ["bob"])] (transferTo "bob")).
  intros _ w Hw _. apply list_elem_of_singleton in Hw as ->. by eexists.
Defined.

(** C1 as stated fails: the second entry lists the destination, but the
    search throws on the first, which has no recipients. *)
Lemma isWhitelisted_spec_counterexample :
  approved absentFirst (transferTo "bob")
  ∧ Evaluator.isWhitelisted absentFirst (transferTo "bob")
    = Err (TypeError "w.recipients is undefined")
  ∧ ¬ (Evaluator.isWhitelisted absentFirst (transferTo "bob") = Ok true
       ↔ approved absentFirst (transferTo "bob")).
Proof.
  assert (approved absentFirst (transferTo "bob")) as Ha.
  { exists (tokenEntry (Some ["bob"])). split; [right; left|].
    split; [done|]. intros _. exists ["bob"], "bob".
    split; [done|]. split; [done | left]. }
  split; [done|]. split; [done|].
  intros [_ H]. specialize (H Ha). discriminate.
Qed.

Lemma approves_matchEntry (a : Action) (w : WhitelistEntry) :
  approves a w → Evaluator.matchEntry a w = Ok true.
Proof.
  intros Hw. destruct (matchEntry_defined a w) as [b Hb].
  - intros Ht _. destruct Hw as [_ Hl].
    destruct (Hl Ht) as (rs & _ & -> & _). by eexists.
  - rewrite Hb. f_equal. by apply (matchEntry_approves a w b).
Qed.

(** An approving entry ahead of every entry without recipients is found. *)
Lemma isWhitelisted_first_listed (a : Action) (pre post : list WhitelistEntry)
    (w : WhitelistEntry) :
  (isTokenTransfer a → recipientsDefined pre) → approves a w →
  Evaluator.isWhitelisted (pre ++ w :: post) a = Ok true.
Proof.
  intros Hpre Hw. unfold Evaluator.isWhitelisted.
  assert (∃ x, find (Evaluator.matchEntry a) (pre ++ w :: post) = Ok (Some x))
    as [x ->]; [|done].
  induction pre as [|y pre IH]; cbn.
  - rewrite (approves_matchEntry a w Hw). by eexists.
  - destruct (matchEntry_defined a y) as [[|] ->]; cbn.
    + intros Ht. apply (Hpre Ht). left.
    + by eexists.
    + apply IH. intros Ht v Hv. apply (Hpre Ht). by right.
Qed.

(** C10, as amended: when an entry for the token contract has no recipients,
    [isWhitelisted] is not total; on a token transfer it never returns
    false, it throws (reading [includes] of undefined) whenever no entry
    lists the destination, and it returns true when an entry that lists the
    destination comes ahead of every entry without recipients. *)
Theorem isWhitelisted_partial (wl : list WhitelistEntry) :
  (∃ w, w ∈ wl ∧ contract w = "eosio.token" ∧ recipients w = None) →
  (∃ a, isTokenTransfer a ∧ ¬ is_Ok (Evaluator.isWhitelisted wl a))
  ∧ (∀ a, isTokenTransfer a → Evaluator.isWhitelisted wl a ≠ Ok false)
  ∧ (∀ a, isTokenTransfer a → ¬ approved wl a →
       Evaluator.isWhitelisted wl a
       = Err (TypeError "w.recipients is undefined"))
  ∧ (∀ a pre w post, isTokenTransfer a → wl = pre ++ w :: post →
       recipientsDefined pre → approves a w →
       Evaluator.isWhitelisted wl a = Ok true).
Proof.
  intros Habs.
  assert (∀ a, isTokenTransfer a → ¬ approved wl a →
       Evaluator.isWhitelisted wl a
       = Err (TypeError "w.recipients is undefined")) as Hthrow.
  { intros a Ht Hna.
    destruct (Evaluator.isWhitelisted wl a) as [[|]|e] eqn:Hr.
    - by apply isWhitelisted_sound in Hr.
    - by apply isWhitelisted_not_false in Hr.
    - by rewrite (isWhitelisted_error wl a e Hr). }
  split; [|split; [|split; [done|]]].
  - exists transferNowhere. split; [done|].
    intros [b Hb]. rewrite Hthrow in Hb; [discriminate | done |].
    intros (w & _ & _ & Hl). destruct (Hl ltac:(done)) as (? & ? & _ & ? & _).
    discriminate.
  - intros a Ht. by apply isWhitelisted_not_false.
  - intros a pre w post _ -> Hpre Hw. by apply isWhitelisted_first_listed.
Qed.

Lemma isWhitelisted_partial_witness :
  (∃ a, isTokenTransfer a ∧ ¬ is_Ok (Evaluator.isWhitelisted absentLast a))
  ∧ (∀ a, isTokenTransfer a → Evaluator.isWhitelisted absentLast a ≠ Ok false)
  ∧ (∀ a, isTokenTransfer a → ¬ approved absentLast a →
       Evaluator.isWhitelisted absentLast a
       = Err (TypeError "w.recipients is undefined"))
  ∧ (∀ a pre w post, isTokenTransfer a → absentLast = pre ++ w :: post →
       recipientsDefined pre → approves a w →
       Evaluator.isWhitelisted absentLast a = Ok true).
Proof.
  apply (isWhitelisted_partial absentLast).
  exists (tokenEntry None). split; [right; left | split; reflexivity].
Defined.

(** C10 as stated fails: the last entry has no recipients, but the search
    ends on the first, which lists the destination, and the answer is
    true. *)
Lemma isWhitelisted_partial_counterexample :
  isTokenTransfer (transferTo "bob")
  ∧ (∃ w, w ∈ absentLast ∧ contract w = account (transferTo "bob")
          ∧ recipients w = None)
  ∧ Evaluator.isWhitelisted absentLast (transferTo "bob") = Ok true.
Proof.
  split; [done|]. split; [|done].
  exists (tokenEntry None). split; [right; left | done].
Qed.

Lemma find_None_intro {A} (f : A → Result bool) (l : list A) :
  (∀ x, x ∈ l → f x = Ok false) → find f l = Ok None.
Proof.
  induction l as [|y l IH]; cbn; intros H; [done|].
  rewrite (H y) by left. cbn. apply IH. intros x Hx. apply H. by right.
Qed.

(** ** [canAutoSign] *)

(** The method reads the whitelist of the session and nothing else. *)
Lemma isWhitelisted_reads (a : Action) (s : State) :
  WaxJS.isWhitelisted a s
  = (match whitelistedContracts s with
     | Some wl => Evaluator.isWhitelisted wl a
     | None => Err (TypeError "this.whitelistedContracts is undefined")
     end, s).
Proof.
  unfold WaxJS.isWhitelisted, gets, mbind, M_bind.
  by destruct (whitelistedContracts s).
Qed.

(** On a transaction in action form, [canAutoSign] is a search for the
    first action that is not whitelisted. *)
Lemma canAutoSign_actions (env : Env) (actions : list Action) (s : State) :
  WaxJS.canAutoSign env (TxActions actions) s
  = (found ← find (λ a, b ← fst (WaxJS.isWhitelisted a s); Ok (negb b))
               actions;
     Ok (negb (bool_decide (is_Some found))), s).
Proof.
  unfold WaxJS.canAutoSign. unfold mbind at 1. unfold M_bind at 1.
  unfold mret at 1. unfold M_ret at 1. unfold mbind at 1. unfold M_bind at 1.
  rewrite (find_reads _
    (λ a, b ← fst (WaxJS.isWhitelisted a s); Ok (negb b)) actions s).
  - by destruct (find _ actions) as [r|e].
  - intros a. unfold mbind at 1. unfold M_bind at 1.
    rewrite isWhitelisted_reads. cbn.
    by destruct (match whitelistedContracts s with Some _ => _ | None => _ end).
Qed.

(** C2: on a transaction in action form [canAutoSign] returns true iff every
    action passes [isWhitelisted] against the whitelist of the session; it
    changes nothing; on an empty list of actions it returns true, whatever
    the whitelist. *)
Theorem canAutoSign_spec (env : Env) (actions : list Action) (s : State) :
  (fst (WaxJS.canAutoSign env (TxActions actions) s) = Ok true
   ↔ ∀ a, a ∈ actions → fst (WaxJS.isWhitelisted a s) = Ok true)
  ∧ snd (WaxJS.canAutoSign env (TxActions actions) s) = s
  ∧ WaxJS.canAutoSign env (TxActions []) s = (Ok true, s).
Proof.
  rewrite canAutoSign_actions. cbn [fst snd].
  split; [|split; [done|by rewrite canAutoSign_actions]].
  set (g := λ a : Action, b ← fst (WaxJS.isWhitelisted a s); Ok (negb b)).
  assert (∀ a, g a = Ok false ↔ fst (WaxJS.isWhitelisted a s) = Ok true) as Hg.
  { intros a. unfold g. destruct (fst (WaxJS.isWhitelisted a s)) as [[|]|e];
      cbn; split; congruence. }
  split.
  - destruct (find g actions) as [[x|]|e] eqn:Hf; cbn; try discriminate.
    intros _ a Ha. apply Hg. by apply (find_None_inv g actions).
  - intros H. rewrite (find_None_intro g actions); [done|].
    intros a Ha. apply Hg. by apply H.
Qed.

(** ** The handlers of the responses *)

(** [receiveLogin] succeeds exactly on a verified payload with an account
    and keys, and then replaces the session. *)
Lemma receiveLogin_Ok (d : EventData) (s : State) (account : string)
    (keys : list string) :
  Data.verified d = Some true → Data.userAccount d = Some account →
  Data.pubKeys d = Some keys →
  WaxJS.receiveLogin d s
  = (Ok account,
     set_api true (set_session (Some account) (Some keys)
       (set_whitelistedContracts
          (Some (default [] (Data.whitelistedContracts d)))
          (set_localStorage
             (<["autoLogin" := toStorageString (Data.autoLogin d)]>
                (localStorage s)) s)))).
Proof.
  intros Hv Hu Hk. unfold WaxJS.receiveLogin. rewrite Hv, Hu, Hk. done.
Qed.

Lemma receiveLogin_inv (d : EventData) (s s' : State) (r : string) :
  WaxJS.receiveLogin d s = (Ok r, s') →
  Data.verified d = Some true ∧ Data.userAccount d = Some r
  ∧ is_Some (Data.pubKeys d).
Proof.
  unfold WaxJS.receiveLogin.
  destruct (Data.verified d) as [[|]|]; cbn; try discriminate.
  destruct (Data.userAccount d) as [u|], (Data.pubKeys d) as [k|]; run;
    try discriminate.
  intros [= <- _]. eauto.
Qed.

Lemma receiveSignatures_Ok (d : EventData) (s : State)
    (sigs : list string) (bytes : list Z) :
  Data.type d = Some "TX_SIGNED" → Data.verified d = Some true →
  Data.signatures d = Some sigs → Data.serializedTransaction d = Some bytes →
  WaxJS.receiveSignatures d s
  = (Ok (Signed sigs (Uint8Array_from bytes)),
     set_whitelistedContracts
       (Some (default [] (Data.whitelistedContracts d))) s).
Proof.
  intros Ht Hv Hs Hb. unfold WaxJS.receiveSignatures.
  rewrite decide_True by done. rewrite Hv, Hs, Hb. done.
Qed.

(** C3: after a successful [receiveLogin], and after a successful
    [receiveSignatures] of a TX_SIGNED payload, the whitelist of the session
    is the [whitelistedContracts] of that payload, or empty when the payload
    has none, whatever the whitelist was before. *)
Theorem whitelist_replaced (d : EventData) (s s' : State) :
  (∃ r, WaxJS.receiveLogin d s = (Ok r, s'))
  ∨ (Data.type d = Some "TX_SIGNED"
     ∧ ∃ r, WaxJS.receiveSignatures d s = (Ok r, s')) →
  whitelistedContracts s'
  = Some (default [] (Data.whitelistedContracts d)).
Proof.
  intros [[r H]|[Ht [r H]]].
  - destruct (receiveLogin_inv d s s' r H) as (Hv & Hu & [k Hk]).
    rewrite (receiveLogin_Ok d s r k Hv Hu Hk) in H. by injection H as <-.
  - revert H. unfold WaxJS.receiveSignatures. rewrite decide_True by done.
    destruct (truthyFlag (Data.verified d)), (Data.signatures d) as [sg|];
      run; try discriminate.
    destruct (Data.serializedTransaction d); run; [|discriminate].
    by intros [= _ <-].
Qed.

Lemma whitelist_replaced_witness :
  whitelistedContracts (snd (WaxJS.receiveLogin loginData dappSession))
  = Some []
  ∧ whitelistedContracts (snd (WaxJS.receiveSignatures signedData dappSession))
    = Some [].
Proof.
  split.
  - apply (whitelist_replaced loginData dappSession). left.
    exists "alice". reflexivity.
  - apply (whitelist_replaced signedData dappSession). right.
    split; [reflexivity|]. eexists. reflexivity.
Defined.

(** C5: a TX_SIGNED payload that is not verified, or that carries no
    signatures, makes [receiveSignatures] fail with the user-declined error;
    the session is left as it was. *)
Theorem receiveSignatures_declined (d : EventData) (s : State) :
  Data.type d = Some "TX_SIGNED" →
  Data.verified d ≠ Some true ∨ Data.signatures d = None →
  WaxJS.receiveSignatures d s = (Err SigningDeclined, s).
Proof.
  intros Ht H. unfold WaxJS.receiveSignatures. rewrite decide_True by done.
  destruct (Data.verified d) as [[|]|], (Data.signatures d) as [sg|];
    try done; by destruct H.
Qed.

Lemma receiveSignatures_declined_witness :
  WaxJS.receiveSignatures declinedData dappSession
  = (Err SigningDeclined, dappSession).
Proof.
  apply (receiveSignatures_declined declinedData dappSession).
  - reflexivity.
  - left. discriminate.
Defined.

(** ** The signing router *)

Lemma receiveSignatures_trace (d : EventData) (s : State) :
  trace (snd (WaxJS.receiveSignatures d s)) = trace s.
Proof.
  unfold WaxJS.receiveSignatures. repeat case_decide; try done.
  destruct (truthyFlag (Data.verified d)), (Data.signatures d); try done.
  run. by destruct (Data.serializedTransaction d).
Qed.

(** The popup flow, step by step. *)
Lemma signViaWindow_run (env : Env) (w : option Window) (req : SigningRequest)
    (s : State) :
  let url := waxSigningURL s +:+ "/cloud-wallet/signing/" in
  let s1 := log (EvOpenEventSource url (Some req) w) s in
  WaxJS.signViaWindow env w req s
  = match openEventSource env (trace s) url (Some req) w with
    | Err e => (Err e, s1)
    | Ok win =>
        let s2 := log (EvOnceEvent win (waxSigningURL s)) s1 in
        match onceEventDelivers env (trace s1) win (waxSigningURL s) with
        | Ok d => WaxJS.receiveSignatures d s2
        | Err e => (Err e, s2)
        end
    end.
Proof.
  unfold WaxJS.signViaWindow, WaxJS.onceEvent. run.
  destruct (openEventSource env _ _ _ _); [|done].
  by destruct (onceEventDelivers env _ _ _).
Qed.

Lemma signingPopups_app (t t' : list Event) :
  signingPopups (t ++ t') = signingPopups t ++ signingPopups t'.
Proof. apply omap_app. Qed.

(** One call of the popup flow asks for one popup, with the window it was
    given. *)
Lemma signViaWindow_popups (env : Env) (w : option Window)
    (req : SigningRequest) (s : State) :
  signingPopups (trace (snd (WaxJS.signViaWindow env w req s)))
  = signingPopups (trace s) ++ [w].
Proof.
  rewrite signViaWindow_run. cbn zeta.
  destruct (openEventSource env _ _ _ _) as [win|e]; cbn.
  - destruct (onceEventDelivers env _ _ _) as [d|e]; cbn.
    + rewrite receiveSignatures_trace. cbn.
      rewrite !signingPopups_app. cbn. by rewrite app_nil_r.
    + rewrite !signingPopups_app. cbn. by rewrite app_nil_r.
  - by rewrite signingPopups_app.
Qed.

(** A failure of the endpoint ahead of [receiveSignatures] empties the
    whitelist and is thrown on. *)
Lemma signViaEndpoint_fails (env : Env) (req : SigningRequest) (s : State) :
  let url := waxAutoSigningURL s +:+ "signing" in
  endpointFails (fetch env (trace s) url "POST" (Some req)) →
  ∃ e, WaxJS.signViaEndpoint env req s
       = (Err e, set_whitelistedContracts (Some [])
                   (log (EvFetch url "POST" (Some req)) s)).
Proof.
  cbn zeta. unfold endpointFails, WaxJS.signViaEndpoint. run.
  destruct (fetch env _ _ _ _) as [e|ok st txt json]; cbn.
  - intros _. by eexists.
  - destruct ok; cbn; [|intros _; by eexists].
    intros [|H]; [done|]. destruct json as [d|e]; cbn; [|by eexists].
    rewrite H. cbn. by eexists.
Qed.

(** Whatever makes [signViaEndpoint] fail, the router turns to the popup
    flow, without a window, and answers what the popup flow answers. *)
Lemma signing_falls_back (env : Env) (req : SigningRequest) (s s1 s2 : State)
    (e : Error) :
  WaxJS.canAutoSign env (transaction req) s = (Ok true, s1) →
  WaxJS.signViaEndpoint env req s1 = (Err e, s2) →
  WaxJS.signing env req s = WaxJS.signViaWindow env None req s2.
Proof.
  intros Hc He. unfold WaxJS.signing. unfold mbind at 1. unfold M_bind at 1.
  rewrite Hc. unfold tryCatch. by rewrite He.
Qed.

(** When the endpoint fails ahead of [receiveSignatures], the whitelist is
    empty when the one popup is asked for. *)
Lemma signing_endpoint_failure (env : Env) (req : SigningRequest)
    (s s1 : State) :
  WaxJS.canAutoSign env (transaction req) s = (Ok true, s1) →
  endpointFails (fetch env (trace s1) (waxAutoSigningURL s1 +:+ "signing")
                   "POST" (Some req)) →
  ∃ e s2, WaxJS.signViaEndpoint env req s1 = (Err e, s2)
          ∧ whitelistedContracts s2 = Some []
          ∧ WaxJS.signing env req s = WaxJS.signViaWindow env None req s2
          ∧ signingPopups (trace (snd (WaxJS.signing env req s)))
            = signingPopups (trace s1) ++ [None].
Proof.
  intros Hc Hf. destruct (signViaEndpoint_fails env req s1 Hf) as [e He].
  eexists _, _. split; [exact He|]. split; [done|].
  rewrite (signing_falls_back env req s s1 _ e Hc He). split; [done|].
  rewrite signViaWindow_popups. cbn. rewrite signingPopups_app. cbn.
  by rewrite app_nil_r.
Qed.

(** C4, on a backend that answers 200 with a body [receiveSignatures]
    rejects: the rejection passes the [catch] clause of [signViaEndpoint]
    by, the whitelist is kept, and the router still turns to the popup,
    once and without a window; the user declines there, and the session
    still trusts the contract. *)
Theorem signing_keeps_whitelist :
  WaxJS.canAutoSign garbledEnv (transaction dappRequest) dappSession
  = (Ok true, dappSession)
  ∧ fst (WaxJS.signViaEndpoint garbledEnv dappRequest dappSession)
    = Err (UnexpectedSigningResponse unknownData)
  ∧ whitelistedContracts
      (snd (WaxJS.signViaEndpoint garbledEnv dappRequest dappSession))
    = Some [mkEntry "dapp" None]
  ∧ fst (WaxJS.signing garbledEnv dappRequest dappSession)
    = Err SigningDeclined
  ∧ whitelistedContracts (snd (WaxJS.signing garbledEnv dappRequest dappSession))
    = Some [mkEntry "dapp" None]
  ∧ signingPopups (trace (snd (WaxJS.signing garbledEnv dappRequest dappSession)))
    = [None].
Proof. repeat split; vm_compute; reflexivity. Qed.

(** ** What the router leaves alone *)

Lemma keeps_ret {A} (a : A) : keeps (mret a).
Proof. done. Qed.

Lemma keeps_throw {A} (e : Error) : keeps (throw (A:=A) e).
Proof. done. Qed.

Lemma keeps_gets {A} (f : State → A) : keeps (gets f).
Proof. done. Qed.

Lemma keeps_lift {A} (r : Result A) : keeps (lift r).
Proof. done. Qed.

Lemma keeps_call {A} (answer : list Event → A) (ev : Event) :
  keeps (call answer ev).
Proof. done. Qed.

Lemma keeps_set_whitelist (v : option (list WhitelistEntry)) :
  keeps (modify (set_whitelistedContracts v)).
Proof. done. Qed.

Lemma keeps_bind {A B} (m : M A) (f : A → M B) :
  keeps m → (∀ a, keeps (f a)) → keeps (m ≫= f).
Proof.
  intros Hm Hf s. unfold mbind, M_bind. specialize (Hm s).
  destruct (m s) as [[a|e] s1]; cbn in *; [|done].
  destruct (Hf a s1) as [-> ->]. done.
Qed.

Lemma keeps_tryCatch {A} (m : M A) (h : Error → M A) :
  keeps m → (∀ e, keeps (h e)) → keeps (tryCatch m h).
Proof.
  intros Hm Hh s. unfold tryCatch. specialize (Hm s).
  destruct (m s) as [[a|e] s1]; cbn in *; [done|].
  destruct (Hh e s1) as [-> ->]. done.
Qed.

Lemma keeps_promise {A} (m : M A) : keeps m → keeps (promise m).
Proof. intros Hm s. apply Hm. Qed.

Lemma keeps_find {A} (f : A → M bool) (l : list A) :
  (∀ x, keeps (f x)) → keeps (find f l).
Proof.
  intros Hf. induction l as [|x l IH]; cbn; [apply keeps_ret|].
  apply keeps_bind; [done|]. intros [|]; [apply keeps_ret | done].
Qed.

Create HintDb keeps.

#[local] Hint Resolve keeps_ret keeps_throw keeps_gets keeps_lift keeps_call
  keeps_set_whitelist keeps_promise : keeps.

Ltac keeps_step :=
  lazymatch goal with
  | |- keeps (_ ≫= _) => apply keeps_bind; [|intros ?]
  | |- keeps (tryCatch _ _) => apply keeps_tryCatch; [|intros ?]
  | |- keeps (find _ _) => apply keeps_find; intros ?
  | |- keeps (promise _) => apply keeps_promise
  | |- keeps (match ?x with _ => _ end) => destruct x
  | |- _ => solve [auto with keeps]
  end.

Lemma keeps_isWhitelisted (a : Action) : keeps (WaxJS.isWhitelisted a).
Proof. unfold WaxJS.isWhitelisted. repeat keeps_step. Qed.

#[local] Hint Resolve keeps_isWhitelisted : keeps.

Lemma keeps_canAutoSign (env : Env) (tx : Transaction) :
  keeps (WaxJS.canAutoSign env tx).
Proof. unfold WaxJS.canAutoSign. repeat keeps_step. Qed.

Lemma keeps_receiveSignatures (d : EventData) :
  keeps (WaxJS.receiveSignatures d).
Proof. unfold WaxJS.receiveSignatures. repeat keeps_step. Qed.

#[local] Hint Resolve keeps_receiveSignatures keeps_canAutoSign : keeps.

Lemma keeps_signViaWindow (env : Env) (w : option Window)
    (req : SigningRequest) : keeps (WaxJS.signViaWindow env w req).
Proof. unfold WaxJS.signViaWindow, WaxJS.onceEvent. repeat keeps_step. Qed.

Lemma keeps_signViaEndpoint (env : Env) (req : SigningRequest) :
  keeps (WaxJS.signViaEndpoint env req).
Proof. unfold WaxJS.signViaEndpoint. repeat keeps_step. Qed.

#[local] Hint Resolve keeps_signViaWindow keeps_signViaEndpoint : keeps.

Lemma keeps_signing (env : Env) (req : SigningRequest) :
  keeps (WaxJS.signing env req).
Proof. unfold WaxJS.signing. repeat keeps_step. Qed.

(** ** The signature provider *)

(** C6: when [sign] returns, the router was called on the request's bytes
    with [waxPaysBW] true iff no co-signer is configured; the transaction
    returned is the one the wallet signed, and it has been written to the
    [serializedTransaction] field of the caller's request object; the
    signatures returned are the wallet's, followed by those the co-signer
    gave for that updated object when a co-signer is configured. *)
Theorem sign_spec (env : Env) (data : nat) (s s' : State)
    (out : list Z * list string) :
  WaxJS.sign env data s = (Ok out, s') →
  ∃ d bytes sigs tx s1,
    heap s !! data = Some d
    ∧ Args.serializedTransaction d = Some bytes
    ∧ WaxJS.signing env
        (mkRequest (TxSerialized bytes) (bool_decide (apiSigner s = None))) s
      = (Ok (Signed sigs tx), s1)
    ∧ fst out = tx
    ∧ heap s' !! data
      = Some (Args.mk (Args.chainId d) (Args.requiredKeys d) (Some tx))
    ∧ match apiSigner s with
      | None => snd out = sigs
      | Some p =>
          ∃ more,
            signerSign p (Args.mk (Args.chainId d) (Args.requiredKeys d)
                            (Some tx)) = Ok more
            ∧ snd out = sigs ++ default [] more
      end.
Proof.
  unfold WaxJS.sign. unfold mbind at 1. unfold M_bind at 1. unfold gets at 1.
  destruct (heap s !! data) as [d|] eqn:Hd; [|discriminate].
  destruct (Args.serializedTransaction d) as [bytes|] eqn:Hb; [|discriminate].
  unfold mbind at 1. unfold M_bind at 1. unfold gets at 1.
  unfold mbind at 1. unfold M_bind at 1.
  replace (negb (bool_decide (is_Some (apiSigner s))))
    with (bool_decide (apiSigner s = None))
    by (destruct (apiSigner s); done).
  pose proof (keeps_signing env
    (mkRequest (TxSerialized bytes) (bool_decide (apiSigner s = None))) s)
    as [Hsigner Hheap].
  destruct (WaxJS.signing env _ s) as [[[sigs tx|]|e] s1] eqn:Hr;
    cbn in Hsigner, Hheap; run; try discriminate.
  rewrite Hsigner, Hheap.
  destruct (apiSigner s) as [p|] eqn:Hp; run.
  - rewrite lookup_insert_eq.
    destruct (signerSign p _) as [more|e] eqn:Hs; cbn; [|discriminate].
    intros [= <- <-]. exists d, bytes, sigs, tx, s1. cbn.
    rewrite lookup_insert_eq. repeat split; try done. by exists more.
  - intros [= <- <-]. exists d, bytes, sigs, tx, s1. cbn.
    rewrite lookup_insert_eq. done.
Qed.

Lemma sign_spec_witness :
  ∃ d bytes sigs tx s1,
    heap cosignedSession !! 0 = Some d
    ∧ Args.serializedTransaction d = Some bytes
    ∧ WaxJS.signing offlineEnv
        (mkRequest (TxSerialized bytes)
           (bool_decide (apiSigner cosignedSession = None))) cosignedSession
      = (Ok (Signed sigs tx), s1)
    ∧ fst ([1; 2; 3]%Z, ["SIG1"; "SIG2"]) = tx
    ∧ heap (snd (WaxJS.sign offlineEnv 0 cosignedSession)) !! 0
      = Some (Args.mk (Args.chainId d) (Args.requiredKeys d) (Some tx))
    ∧ match apiSigner cosignedSession with
      | None => snd ([1; 2; 3]%Z, ["SIG1"; "SIG2"]) = sigs
      | Some p =>
          ∃ more,
            signerSign p (Args.mk (Args.chainId d) (Args.requiredKeys d)
                            (Some tx)) = Ok more
            ∧ snd ([1; 2; 3]%Z, ["SIG1"; "SIG2"]) = sigs ++ default [] more
      end.
Proof.
  apply (sign_spec offlineEnv 0 cosignedSession
           (snd (WaxJS.sign offlineEnv 0 cosignedSession))
           ([1; 2; 3]%Z, ["SIG1"; "SIG2"])).
  vm_compute. reflexivity.
Defined.

(** C8, as amended: in a session with keys, [getAvailableKeys] returns the
    wallet's keys when no co-signer is configured, and the wallet's keys
    followed by the co-signer's when the co-signer answers; when the
    co-signer's enumeration throws, [getAvailableKeys] rejects with that
    error. *)
Theorem getAvailableKeys_spec (s : State) (keys : list string) :
  pubKeys s = Some keys →
  WaxJS.getAvailableKeys s
  = match apiSigner s with
    | None => (Ok keys, s)
    | Some p =>
        (match signerKeys p with
         | Ok more => Ok (keys ++ default [] more)
         | Err e => Err e
         end, log EvSignerKeys s)
    end.
Proof.
  intros Hk. unfold WaxJS.getAvailableKeys. run. rewrite Hk.
  destruct (apiSigner s) as [p|]; cbn; [|done].
  by destruct (signerKeys p).
Qed.

Lemma getAvailableKeys_spec_witness :
  WaxJS.getAvailableKeys cosignedSession
  = (Ok ["PUB_K1"; "PUB_K2"], log EvSignerKeys cosignedSession).
Proof.
  apply (getAvailableKeys_spec cosignedSession ["PUB_K1"]). reflexivity.
Defined.

(** C8 as stated fails: the co-signer's enumeration throws, and
    [getAvailableKeys] rejects with its error. *)
Lemma getAvailableKeys_rejects :
  signerKeys lockedCosigner = Err (ExternalError "key store is locked")
  ∧ fst (WaxJS.getAvailableKeys lockedSession)
    = Err (ExternalError "key store is locked").
Proof. split; reflexivity. Qed.

(** ** Login *)

(** C7: after the constructor was given the account alice and the keys
    PUB_K1, [login] returns alice at once; neither the constructor nor
    [login] has called the network or the popup bridge. *)
Theorem login_from_constructor (env : Env) (rpc : string)
    (tryAuto : option bool) (signer : option SignatureProvider)
    (url autoUrl : option string) :
  let cfg := Config.mk rpc tryAuto (Some "alice") (Some ["PUB_K1"]) signer
               url autoUrl in
  let s := WaxJS.constructor env cfg in
  WaxJS.login env s = (Ok "alice", s)
  ∧ trace s = []
  ∧ userAccount s = Some "alice"
  ∧ pubKeys s = Some ["PUB_K1"].
Proof. done. Qed.

(** ** The handshake *)

(** C9, as amended: on a READY message the handler returns the empty result
    without an error and without touching the session, and the popup flow,
    whose one awaited message this was, ends with that empty result. *)
Theorem ready_ends_wait (env : Env) (w : option Window)
    (req : SigningRequest) (s : State) (win : Window) (d : EventData) :
  let url := waxSigningURL s +:+ "/cloud-wallet/signing/" in
  let s1 := log (EvOpenEventSource url (Some req) w) s in
  let s2 := log (EvOnceEvent win (waxSigningURL s)) s1 in
  openEventSource env (trace s) url (Some req) w = Ok win →
  onceEventDelivers env (trace s1) win (waxSigningURL s) = Ok d →
  Data.type d = Some "READY" →
  WaxJS.receiveSignatures d s2 = (Ok Empty, s2)
  ∧ WaxJS.signViaWindow env w req s = (Ok Empty, s2).
Proof.
  intros url s1 s2 Ho Hd Ht.
  assert (WaxJS.receiveSignatures d s2 = (Ok Empty, s2)) as Hr.
  { unfold WaxJS.receiveSignatures. rewrite Ht.
    rewrite decide_False by discriminate.
    rewrite decide_False by (intros H; by apply H). done. }
  split; [done|].
  rewrite signViaWindow_run. cbn zeta. fold url. rewrite Ho.
  fold s1. rewrite Hd. done.
Qed.

Lemma ready_ends_wait_witness :
  WaxJS.receiveSignatures readyData
    (log (EvOnceEvent 7 "https://all-access.wax.io")
       (log (EvOpenEventSource
               "https://all-access.wax.io/cloud-wallet/signing/"
               (Some dappRequest) None) dappSession))
  = (Ok Empty,
     log (EvOnceEvent 7 "https://all-access.wax.io")
       (log (EvOpenEventSource
               "https://all-access.wax.io/cloud-wallet/signing/"
               (Some dappRequest) None) dappSession))
  ∧ WaxJS.signViaWindow readyEnv None dappRequest dappSession
    = (Ok Empty,
       log (EvOnceEvent 7 "https://all-access.wax.io")
         (log (EvOpenEventSource
                 "https://all-access.wax.io/cloud-wallet/signing/"
                 (Some dappRequest) None) dappSession)).
Proof.
  apply (ready_ends_wait readyEnv None dappRequest dappSession 7 readyData);
    reflexivity.
Defined.

(** C9 as stated fails: the popup answers READY, and the popup flow is over;
    it has waited for one message, and its result is the empty one. *)
Lemma ready_not_skipped :
  fst (WaxJS.signViaWindow readyEnv None dappRequest dappSession) = Ok Empty
  ∧ trace (snd (WaxJS.signViaWindow readyEnv None dappRequest dappSession))
    = [EvOpenEventSource "https://all-access.wax.io/cloud-wallet/signing/"
         (Some dappRequest) None;
       EvOnceEvent 7 "https://all-access.wax.io"].
Proof. split; reflexivity. Qed.

(** ** Scenarios *)

(** The backend is down: the whitelist is emptied, one popup is asked for
    without a window, and the caller gets what the popup signed. *)
Example signing_offline :
  ∃ e s2,
    WaxJS.signViaEndpoint offlineEnv dappRequest dappSession = (Err e, s2)
    ∧ whitelistedContracts s2 = Some []
    ∧ WaxJS.signing offlineEnv dappRequest dappSession
      = WaxJS.signViaWindow offlineEnv None dappRequest s2
    ∧ signingPopups
        (trace (snd (WaxJS.signing offlineEnv dappRequest dappSession)))
      = signingPopups (trace dappSession) ++ [None].
Proof.
  apply (signing_endpoint_failure offlineEnv dappRequest dappSession
           dappSession); [reflexivity | exact I].
Qed.

Example signing_offline_result :
  fst (WaxJS.signing offlineEnv dappRequest dappSession)
  = Ok (Signed ["SIG1"] [1; 2; 3]%Z).
Proof. reflexivity. Qed.

(** A handshake that reaches [sign] clears the field of the request object
    and ends in a type error. *)
Example sign_after_handshake :
  fst (WaxJS.sign readyEnv 0 cosignedSession)
  = Err (TypeError "signatures is not iterable")
  ∧ Args.serializedTransaction
      <$> heap (snd (WaxJS.sign readyEnv 0 cosignedSession)) !! 0
    = Some None.
Proof. split; vm_compute; reflexivity. Qed.

(** A body with [processed.except] makes the login endpoint fail, and
    [isAutoLoginAvailable] answers false. *)
Lemma isAutoLoginAvailable_except (env : Env) (s : State) (d : EventData)
    (status : Z) (statusText : string) :
  WaxJS.hasSession (userAccount s) (pubKeys s) = false →
  fetch env (trace s) (waxAutoSigningURL s +:+ "login") "get" None
  = FetchResponse true status statusText (Ok d) →
  WaxJS.hasExcept d = true →
  fst (WaxJS.loginViaEndpoint env s) = Err (EndpointExcept d)
  ∧ fst (WaxJS.isAutoLoginAvailable env s) = Ok false.
Proof.
  intros Hs Hf Hx. unfold WaxJS.isAutoLoginAvailable, WaxJS.loginViaEndpoint.
  run. rewrite Hs, Hf. cbn. rewrite Hx. done.
Qed.

(** * Further properties *)

(** ** The evaluator on its own *)

Lemma matchEntry_other (a : Action) (w : WhitelistEntry) :
  ¬ isTokenTransfer a →
  Evaluator.matchEntry a w = Ok (bool_decide (contract w = account a)).
Proof.
  intros Hn. unfold Evaluator.matchEntry, isTokenTransfer in *.
  destruct (decide (contract w = account a)) as [Hc|Hc].
  - rewrite decide_False by done. by rewrite bool_decide_eq_true_2.
  - by rewrite bool_decide_eq_false_2.
Qed.

(** On an action that is not a token transfer [isWhitelisted] never throws:
    it answers whether the account is the contract of some entry, and reads
    neither the payload nor any recipients. *)
Theorem isWhitelisted_other_action (wl : list WhitelistEntry) (a : Action) :
  ¬ isTokenTransfer a →
  Evaluator.isWhitelisted wl a
  = Ok (bool_decide (account a ∈ contract <$> wl)).
Proof.
  intros Hn. unfold Evaluator.isWhitelisted.
  induction wl as [|w wl IH]; cbn.
  - done.
  - rewrite (matchEntry_other a w Hn).
    destruct (decide (contract w = account a)) as [Hc|Hc].
    + rewrite bool_decide_eq_true_2 by done. cbn.
      rewrite bool_decide_eq_true_2; [done | rewrite Hc; left].
    + rewrite bool_decide_eq_false_2 by done. cbn. cbn in IH. rewrite IH.
      f_equal. apply bool_decide_ext. rewrite elem_of_cons.
      split; [by right | by intros [?|?]].
Qed.

Lemma isWhitelisted_other_action_witness :
  Evaluator.isWhitelisted [tokenEntry None]
    (mkAction "eosio.token" "issue" ∅)
  = Ok (bool_decide ("eosio.token" ∈ contract <$> [tokenEntry None])).
Proof.
  apply (isWhitelisted_other_action [tokenEntry None]
           (mkAction "eosio.token" "issue" ∅)).
  intros [_ ?]. discriminate.
Defined.

(** Entries appended to a whitelist are looked at only when the ones before
    them answered false: they never revoke an approval and never repair a
    throw. *)
Theorem isWhitelisted_app (wl wl' : list WhitelistEntry) (a : Action) :
  Evaluator.isWhitelisted (wl ++ wl') a
  = match Evaluator.isWhitelisted wl a with
    | Ok false => Evaluator.isWhitelisted wl' a
    | r => r
    end.
Proof.
  unfold Evaluator.isWhitelisted.
  induction wl as [|w wl IH]; cbn; [done|].
  destruct (Evaluator.matchEntry a w) as [[|]|e]; cbn; done.
Qed.

(** A token transfer whose payload names no destination is never
    approved. *)
Theorem transfer_without_destination (wl : list WhitelistEntry) (a : Action) :
  isTokenTransfer a → data a !! "to" = None →
  Evaluator.isWhitelisted wl a ≠ Ok true.
Proof.
  intros Ht Hto Hr. apply isWhitelisted_sound in Hr as (w & _ & _ & Hl).
  destruct (Hl Ht) as (rs & t & _ & Hd & _). congruence.
Qed.

Lemma transfer_without_destination_witness :
  Evaluator.isWhitelisted [tokenEntry (Some ["bob"])] transferNowhere
  ≠ Ok true.
Proof.
  apply (transfer_without_destination [tokenEntry (Some ["bob"])]
           transferNowhere); [split; reflexivity | reflexivity].
Defined.

(** With an empty whitelist only the transaction without actions can be
    signed unattended. *)
Theorem canAutoSign_empty_whitelist (env : Env) (actions : list Action)
    (s : State) :
  whitelistedContracts s = Some [] →
  WaxJS.canAutoSign env (TxActions actions) s
  = (Ok (bool_decide (actions = [])), s).
Proof.
  intros Hw. rewrite canAutoSign_actions.
  destruct actions as [|a l]; cbn; [done|].
  rewrite isWhitelisted_reads, Hw. done.
Qed.

Lemma canAutoSign_empty_whitelist_witness :
  WaxJS.canAutoSign offlineEnv (TxActions [mkAction "dapp" "play" ∅])
    lockedSession
  = (Ok (bool_decide ([mkAction "dapp" "play" ∅] = [])), lockedSession).
Proof.
  apply (canAutoSign_empty_whitelist offlineEnv [mkAction "dapp" "play" ∅]
           lockedSession). reflexivity.
Defined.

(** ** The handlers, case by case *)

(** [receiveLogin] rejects a payload that is not verified as declined, and
    a verified one without an account or without keys as having no
    blockchain account; in both cases nothing is stored and the session is
    as it was. *)
Theorem receiveLogin_rejects (d : EventData) (s : State) :
  Data.verified d ≠ Some true ∨ Data.userAccount d = None
  ∨ Data.pubKeys d = None →
  WaxJS.receiveLogin d s
  = (Err (if bool_decide (Data.verified d = Some true)
          then NoBlockchainAccount else LoginDeclined), s).
Proof.
  intros H. unfold WaxJS.receiveLogin.
  destruct (Data.verified d) as [[|]|]; cbn; try done.
  destruct (Data.userAccount d), (Data.pubKeys d); try done.
  destruct H as [|[|]]; done.
Qed.

Lemma receiveLogin_rejects_witness :
  WaxJS.receiveLogin declinedData blankSession
  = (Err (if bool_decide (Data.verified declinedData = Some true)
          then NoBlockchainAccount else LoginDeclined), blankSession).
Proof.
  apply (receiveLogin_rejects declinedData blankSession). left. discriminate.
Defined.

(** Whatever the payload, [receiveSignatures] changes nothing but the
    whitelist, and the whitelist only on a verified TX_SIGNED payload with
    signatures. *)
Theorem receiveSignatures_effects (d : EventData) (s : State) :
  snd (WaxJS.receiveSignatures d s) = s
  ∨ (Data.type d = Some "TX_SIGNED" ∧ Data.verified d = Some true
     ∧ is_Some (Data.signatures d)
     ∧ snd (WaxJS.receiveSignatures d s)
       = set_whitelistedContracts
           (Some (default [] (Data.whitelistedContracts d))) s).
Proof.
  unfold WaxJS.receiveSignatures.
  destruct (decide (Data.type d = Some "TX_SIGNED")) as [Ht|Ht].
  - destruct (Data.verified d) as [[|]|], (Data.signatures d) as [sg|];
      cbn; try (by left).
    right. run. by destruct (Data.serializedTransaction d).
  - left. by case_decide.
Qed.

(** A payload that is neither TX_SIGNED nor READY is thrown back as an
    unexpected response; the session is as it was. *)
Theorem receiveSignatures_unexpected (d : EventData) (s : State) :
  Data.type d ≠ Some "TX_SIGNED" → Data.type d ≠ Some "READY" →
  WaxJS.receiveSignatures d s = (Err (UnexpectedSigningResponse d), s).
Proof.
  intros H1 H2. unfold WaxJS.receiveSignatures.
  rewrite decide_False by done. by rewrite decide_True.
Qed.

Lemma receiveSignatures_unexpected_witness :
  WaxJS.receiveSignatures unknownData dappSession
  = (Err (UnexpectedSigningResponse unknownData), dappSession).
Proof.
  apply (receiveSignatures_unexpected unknownData dappSession); discriminate.
Defined.

(** A verified TX_SIGNED payload with signatures but without the
    transaction fails in [Uint8Array.from], after the whitelist has been
    replaced: the error leaves the new whitelist behind. *)
Theorem receiveSignatures_half_done (d : EventData) (s : State)
    (sigs : list string) :
  Data.type d = Some "TX_SIGNED" → Data.verified d = Some true →
  Data.signatures d = Some sigs → Data.serializedTransaction d = None →
  WaxJS.receiveSignatures d s
  = (Err (TypeError "undefined is not iterable"),
     set_whitelistedContracts
       (Some (default [] (Data.whitelistedContracts d))) s).
Proof.
  intros Ht Hv Hs Hb. unfold WaxJS.receiveSignatures.
  rewrite decide_True by done. rewrite Hv, Hs, Hb. done.
Qed.

Lemma receiveSignatures_half_done_witness :
  WaxJS.receiveSignatures headlessData dappSession
  = (Err (TypeError "undefined is not iterable"),
     set_whitelistedContracts
       (Some (default [] (Data.whitelistedContracts headlessData)))
       dappSession).
Proof.
  apply (receiveSignatures_half_done headlessData dappSession ["SIG1"]);
    reflexivity.
Defined.

(** The transaction [receiveSignatures] returns has one byte for every
    element of the payload's, each in the range of a byte, and is the
    payload's when that is made of bytes. *)
Theorem receiveSignatures_bytes (d : EventData) (s s' : State)
    (sigs : list string) (tx : list Z) :
  WaxJS.receiveSignatures d s = (Ok (Signed sigs tx), s') →
  ∃ bytes, Data.serializedTransaction d = Some bytes
    ∧ Data.signatures d = Some sigs
    ∧ length tx = length bytes
    ∧ Forall (λ b, 0 ≤ b < 256)%Z tx
    ∧ (Forall (λ b, 0 ≤ b < 256)%Z bytes → tx = bytes).
Proof.
  unfold WaxJS.receiveSignatures. repeat case_decide; try discriminate.
  destruct (truthyFlag (Data.verified d)), (Data.signatures d) as [sg|];
    try discriminate.
  run. destruct (Data.serializedTransaction d) as [bytes|]; [|discriminate].
  intros [= <- <- _]. exists bytes. unfold Uint8Array_from.
  split; [done|]. split; [done|]. split; [by rewrite length_fmap|]. split.
  - apply Forall_fmap, Forall_forall. intros z _. cbn.
    apply Z.mod_pos_bound. done.
  - intros Hb. induction Hb as [|z l Hz _ IH]; cbn; [done|].
    rewrite Z.mod_small by done. by rewrite IH.
Qed.

Lemma receiveSignatures_bytes_witness :
  ∃ bytes, Data.serializedTransaction signedData = Some bytes
    ∧ Data.signatures signedData = Some ["SIG1"]
    ∧ length [1; 2; 3]%Z = length bytes
    ∧ Forall (λ b, 0 ≤ b < 256)%Z [1; 2; 3]%Z
    ∧ (Forall (λ b, 0 ≤ b < 256)%Z bytes → [1; 2; 3]%Z = bytes).
Proof.
  apply (receiveSignatures_bytes signedData dappSession
           (snd (WaxJS.receiveSignatures signedData dappSession)) ["SIG1"]
           [1; 2; 3]%Z).
  reflexivity.
Defined.

(** ** Logging in *)

Lemma receiveLogin_trace (d : EventData) (s : State) :
  trace (snd (WaxJS.receiveLogin d s)) = trace s.
Proof.
  unfold WaxJS.receiveLogin.
  destruct (truthyFlag (Data.verified d)); cbn; [|done].
  by destruct (Data.userAccount d), (Data.pubKeys d).
Qed.

(** The popup login, step by step. *)
Lemma loginViaWindow_run (env : Env) (s : State) :
  let url := waxSigningURL s +:+ "/cloud-wallet/login/" in
  let s1 := log (EvOpenEventSource url None None) s in
  WaxJS.loginViaWindow env s
  = match openEventSource env (trace s) url None None with
    | Err e => (Err e, s1)
    | Ok win =>
        let s2 := log (EvOnceEvent win (waxSigningURL s)) s1 in
        match onceEventDelivers env (trace s1) win (waxSigningURL s) with
        | Ok d => WaxJS.receiveLogin d s2
        | Err e => (Err e, s2)
        end
    end.
Proof.
  unfold WaxJS.loginViaWindow, WaxJS.onceEvent. run.
  destruct (openEventSource env _ _ _ _); [|done].
  by destruct (onceEventDelivers env _ _ _).
Qed.

Lemma login_run (env : Env) (s : State) :
  WaxJS.login env s
  = if WaxJS.hasSession (userAccount s) (pubKeys s)
    then (Ok (default "" (userAccount s)), s)
    else WaxJS.loginViaWindow env s.
Proof.
  unfold WaxJS.login. run.
  by destruct (WaxJS.hasSession (userAccount s) (pubKeys s)).
Qed.

(** What [login] asks of the collaborators: nothing when there is a
    session; otherwise one popup at the login address, with no payload and
    no window, and one wait for a message when that popup has opened. It
    never fetches. *)
Theorem login_calls (env : Env) (s : State) :
  let url := waxSigningURL s +:+ "/cloud-wallet/login/" in
  trace (snd (WaxJS.login env s))
  = trace s
    ++ (if WaxJS.hasSession (userAccount s) (pubKeys s) then []
        else EvOpenEventSource url None None
             :: match openEventSource env (trace s) url None None with
                | Ok win => [EvOnceEvent win (waxSigningURL s)]
                | Err _ => []
                end).
Proof.
  cbn zeta. rewrite login_run.
  destruct (WaxJS.hasSession _ _); cbn; [by rewrite app_nil_r|].
  rewrite loginViaWindow_run. cbn zeta.
  destruct (openEventSource env _ _ _ _) as [win|e]; cbn; [|done].
  destruct (onceEventDelivers env _ _ _) as [d|e]; cbn.
  - rewrite receiveLogin_trace. cbn. by rewrite <- app_assoc.
  - by rewrite <- app_assoc.
Qed.

(** Once [login] has returned an account that is not the empty string, the
    next [login] returns it again, without a call and without a change. *)
Theorem login_again (env env' : Env) (s s' : State) (r : string) :
  WaxJS.login env s = (Ok r, s') → r ≠ "" →
  WaxJS.login env' s' = (Ok r, s').
Proof.
  rewrite login_run. intros H Hr.
  destruct (WaxJS.hasSession (userAccount s) (pubKeys s)) eqn:Hs.
  - injection H as <- <-. by rewrite login_run, Hs.
  - rewrite loginViaWindow_run in H. cbn zeta in H.
    destruct (openEventSource env _ _ _ _) as [win|e]; [|discriminate].
    destruct (onceEventDelivers env _ _ _) as [d|e]; [|discriminate].
    destruct (receiveLogin_inv _ _ _ _ H) as (Hv & Hu & [k Hk]).
    rewrite (receiveLogin_Ok _ _ r k Hv Hu Hk) in H. injection H as <-.
    rewrite login_run. cbn. unfold WaxJS.hasSession. cbn.
    by rewrite bool_decide_eq_false_2.
Qed.

Lemma login_again_witness :
  WaxJS.login offlineEnv (snd (WaxJS.login acceptingEnv blankSession))
  = (Ok "alice", snd (WaxJS.login acceptingEnv blankSession)).
Proof.
  apply (login_again acceptingEnv offlineEnv blankSession
           (snd (WaxJS.login acceptingEnv blankSession)) "alice").
  - reflexivity.
  - discriminate.
Defined.

(** A failure of the login endpoint (the request is rejected, the status
    is not OK, the body cannot be read or has [processed.except]) is thrown
    to the caller; the one request is all that has happened, and the
    whitelist is not emptied. *)
Theorem loginViaEndpoint_fails (env : Env) (s : State) :
  let url := waxAutoSigningURL s +:+ "login" in
  endpointFails (fetch env (trace s) url "get" None) →
  ∃ e, WaxJS.loginViaEndpoint env s = (Err e, log (EvFetch url "get" None) s).
Proof.
  cbn zeta. unfold endpointFails, WaxJS.loginViaEndpoint. run.
  destruct (fetch env _ _ _ _) as [e|ok st txt json]; cbn.
  - intros _. by eexists.
  - destruct ok; cbn; [|intros _; by eexists].
    intros [|H]; [done|]. destruct json as [d|e]; cbn; [|by eexists].
    rewrite H. by eexists.
Qed.

Lemma loginViaEndpoint_fails_witness :
  ∃ e, WaxJS.loginViaEndpoint offlineEnv blankSession
       = (Err e,
          log (EvFetch (waxAutoSigningURL blankSession +:+ "login") "get" None)
            blankSession).
Proof.
  apply (loginViaEndpoint_fails offlineEnv blankSession). exact I.
Defined.

Lemma isAutoLoginAvailable_run (env : Env) (s : State) :
  WaxJS.isAutoLoginAvailable env s
  = if WaxJS.hasSession (userAccount s) (pubKeys s) then (Ok true, s)
    else match WaxJS.loginViaEndpoint env s with
         | (Ok _, s1) => (Ok true, s1)
         | (Err _, s1) => (Ok false, s1)
         end.
Proof.
  unfold WaxJS.isAutoLoginAvailable. unfold mbind at 1 2. unfold M_bind at 1 2.
  unfold gets at 1 2.
  destruct (WaxJS.hasSession (userAccount s) (pubKeys s)); [done|].
  unfold tryCatch, mbind, M_bind.
  by destruct (WaxJS.loginViaEndpoint env s) as [[r|e] s1].
Qed.

(** [isAutoLoginAvailable] never throws. It answers true iff there is a
    session already or the login endpoint logs the user in, and with a
    session it makes no call. *)
Theorem isAutoLoginAvailable_answers (env : Env) (s : State) :
  ∃ b, fst (WaxJS.isAutoLoginAvailable env s) = Ok b
    ∧ (b = true ↔ WaxJS.hasSession (userAccount s) (pubKeys s) = true
                  ∨ is_Ok (fst (WaxJS.loginViaEndpoint env s)))
    ∧ (WaxJS.hasSession (userAccount s) (pubKeys s) = true →
       WaxJS.isAutoLoginAvailable env s = (Ok true, s)).
Proof.
  rewrite isAutoLoginAvailable_run.
  destruct (WaxJS.hasSession (userAccount s) (pubKeys s)) eqn:Hs.
  - exists true. split; [done|]. split; [|done]. split; [by left | done].
  - destruct (WaxJS.loginViaEndpoint env s) as [[r|e] s1]; cbn.
    + exists true. split; [done|]. split; [|done].
      split; [intros _; right; by eexists | done].
    + exists false. split; [done|]. split; [|done].
      split; [done|]. intros [|[? ?]]; done.
Qed.

(** After [isAutoLoginAvailable] has answered true, [login] returns the
    account at once, unless the account is the empty string. *)
Theorem isAutoLoginAvailable_then_login (env env' : Env) (s s' : State) :
  WaxJS.isAutoLoginAvailable env s = (Ok true, s') →
  userAccount s' ≠ Some "" →
  ∃ u, userAccount s' = Some u ∧ WaxJS.login env' s' = (Ok u, s').
Proof.
  rewrite isAutoLoginAvailable_run.
  destruct (WaxJS.hasSession (userAccount s) (pubKeys s)) eqn:Hs.
  - intros [= <-] _. rewrite login_run, Hs. unfold WaxJS.hasSession in Hs.
    destruct (userAccount s) as [u|]; [|done]. by exists u.
  - destruct (WaxJS.loginViaEndpoint env s) as [[r|e] s1] eqn:Hl; cbn;
      [|discriminate].
    intros [= <-] Hne. revert Hl. unfold WaxJS.loginViaEndpoint. run.
    destruct (fetch env _ _ _ _) as [e|ok st txt [d|e]]; cbn;
      try destruct ok; cbn; try discriminate.
    destruct (WaxJS.hasExcept d); [discriminate|].
    intros H. destruct (receiveLogin_inv _ _ _ _ H) as (Hv & Hu & [k Hk]).
    rewrite (receiveLogin_Ok _ _ r k Hv Hu Hk) in H. injection H as <-.
    cbn in Hne. exists r. split; [done|]. rewrite login_run. cbn.
    unfold WaxJS.hasSession. cbn.
    rewrite bool_decide_eq_false_2 by congruence. done.
Qed.

Lemma isAutoLoginAvailable_then_login_witness :
  ∃ u, userAccount (snd (WaxJS.isAutoLoginAvailable acceptingEnv blankSession))
       = Some u
    ∧ WaxJS.login offlineEnv
        (snd (WaxJS.isAutoLoginAvailable acceptingEnv blankSession))
      = (Ok u, snd (WaxJS.isAutoLoginAvailable acceptingEnv blankSession)).
Proof.
  apply (isAutoLoginAvailable_then_login acceptingEnv offlineEnv blankSession
           (snd (WaxJS.isAutoLoginAvailable acceptingEnv blankSession))).
  - reflexivity.
  - discriminate.
Defined.

(** An account that is the empty string passes [receiveLogin] but is no
    session for [login], which asks for the popup again. *)
Example login_nameless :
  fst (WaxJS.receiveLogin namelessData blankSession) = Ok ""
  ∧ trace (snd (WaxJS.login offlineEnv
                  (snd (WaxJS.receiveLogin namelessData blankSession))))
    = [EvOpenEventSource "https://all-access.wax.io/cloud-wallet/login/"
         None None;
       EvOnceEvent 7 "https://all-access.wax.io"].
Proof. repeat split; reflexivity. Qed.

(** ** What signing leaves alone *)

Section Preserved.

Context {B : Type} (view : State → B).
Hypothesis view_log : ∀ ev s, view (log ev s) = view s.
Hypothesis view_whitelist :
  ∀ v s, view (set_whitelistedContracts v s) = view s.

Lemma preserves_ret {A} (a : A) : preserves view (mret a).
Proof. done. Qed.

Lemma preserves_throw {A} (e : Error) : preserves view (throw (A:=A) e).
Proof. done. Qed.

Lemma preserves_gets {A} (f : State → A) : preserves view (gets f).
Proof. done. Qed.

Lemma preserves_lift {A} (r : Result A) : preserves view (lift r).
Proof. done. Qed.

Lemma preserves_call {A} (answer : list Event → A) (ev : Event) :
  preserves view (call answer ev).
Proof. intros s. apply view_log. Qed.

Lemma preserves_set_whitelist (v : option (list WhitelistEntry)) :
  preserves view (modify (set_whitelistedContracts v)).
Proof. intros s. apply view_whitelist. Qed.

Lemma preserves_bind {A C} (m : M A) (f : A → M C) :
  preserves view m → (∀ a, preserves view (f a)) → preserves view (m ≫= f).
Proof.
  intros Hm Hf s. unfold mbind, M_bind. specialize (Hm s).
  destruct (m s) as [[a|e] s1]; cbn in *; [|done]. by rewrite Hf.
Qed.

Lemma preserves_tryCatch {A} (m : M A) (h : Error → M A) :
  preserves view m → (∀ e, preserves view (h e)) →
  preserves view (tryCatch m h).
Proof.
  intros Hm Hh s. unfold tryCatch. specialize (Hm s).
  destruct (m s) as [[a|e] s1]; cbn in *; [done|]. by rewrite Hh.
Qed.

Lemma preserves_promise {A} (m : M A) :
  preserves view m → preserves view (promise m).
Proof. intros Hm s. apply Hm. Qed.

Lemma preserves_find {A} (f : A → M bool) (l : list A) :
  (∀ x, preserves view (f x)) → preserves view (find f l).
Proof.
  intros Hf. induction l as [|x l IH]; cbn; [apply preserves_ret|].
  apply preserves_bind; [done|]. intros [|]; [apply preserves_ret | done].
Qed.

Ltac preserves_step :=
  lazymatch goal with
  | |- preserves _ (_ ≫= _) => apply preserves_bind; [|intros ?]
  | |- preserves _ (tryCatch _ _) => apply preserves_tryCatch; [|intros ?]
  | |- preserves _ (find _ _) => apply preserves_find; intros ?
  | |- preserves _ (promise _) => apply preserves_promise
  | |- preserves _ (match ?x with _ => _ end) => destruct x
  | |- preserves _ (mret _) => apply preserves_ret
  | |- preserves _ (throw _) => apply preserves_throw
  | |- preserves _ (gets _) => apply preserves_gets
  | |- preserves _ (lift _) => apply preserves_lift
  | |- preserves _ (call _ _) => apply preserves_call
  | |- preserves _ (modify (set_whitelistedContracts _)) =>
      apply preserves_set_whitelist
  end.

Lemma preserves_isWhitelisted (a : Action) :
  preserves view (WaxJS.isWhitelisted a).
Proof. unfold WaxJS.isWhitelisted. repeat preserves_step. Qed.

Lemma preserves_canAutoSign (env : Env) (tx : Transaction) :
  preserves view (WaxJS.canAutoSign env tx).
Proof.
  unfold WaxJS.canAutoSign. repeat preserves_step.
  apply preserves_isWhitelisted.
Qed.

Lemma preserves_receiveSignatures (d : EventData) :
  preserves view (WaxJS.receiveSignatures d).
Proof. unfold WaxJS.receiveSignatures. repeat preserves_step. Qed.

Lemma preserves_signViaWindow (env : Env) (w : option Window)
    (req : SigningRequest) : preserves view (WaxJS.signViaWindow env w req).
Proof.
  unfold WaxJS.signViaWindow, WaxJS.onceEvent. repeat preserves_step.
  apply preserves_receiveSignatures.
Qed.

Lemma preserves_signViaEndpoint (env : Env) (req : SigningRequest) :
  preserves view (WaxJS.signViaEndpoint env req).
Proof.
  unfold WaxJS.signViaEndpoint. repeat preserves_step.
  apply preserves_receiveSignatures.
Qed.

Lemma preserves_signing (env : Env) (req : SigningRequest) :
  preserves view (WaxJS.signing env req).
Proof.
  unfold WaxJS.signing. repeat preserves_step.
  - apply preserves_canAutoSign.
  - apply preserves_signViaEndpoint.
  - apply preserves_signViaWindow.
  - apply preserves_signViaWindow.
Qed.

End Preserved.

(** Whatever its outcome, signing leaves the account, its keys, the cached
    popup handle, the submission object, the storage and the addresses as
    they were: of the session it changes the whitelist only. *)
Theorem signing_keeps_session (env : Env) (req : SigningRequest) (s : State) :
  session (snd (WaxJS.signing env req s)) = session s.
Proof. by apply (preserves_signing session). Qed.

(** ** The router, call by call *)

(** A serialized transaction is judged by its deserialized actions: without
    the submission object the deserializer is not reached, an error of the
    deserializer is thrown on, and otherwise the answer is the one for the
    actions it gave. *)
Theorem canAutoSign_serialized (env : Env) (bytes : list Z) (s : State) :
  WaxJS.canAutoSign env (TxSerialized bytes) s
  = if api s then
      match deserializeTransactionWithActions env (trace s) bytes with
      | Ok actions =>
          WaxJS.canAutoSign env (TxActions actions)
            (log (EvDeserialize bytes) s)
      | Err e => (Err e, log (EvDeserialize bytes) s)
      end
    else (Err (TypeError "this.api is undefined"), s).
Proof.
  unfold WaxJS.canAutoSign. run. destruct (api s); [|done].
  by destruct (deserializeTransactionWithActions env _ _).
Qed.

Lemma fetched_app (t t' : list Event) :
  fetched (t ++ t') = fetched t ++ fetched t'.
Proof. apply omap_app. Qed.

(** [canAutoSign] calls neither the network nor the popup bridge. *)
Lemma canAutoSign_quiet (env : Env) (tx : Transaction) (s : State) :
  fetched (trace (snd (WaxJS.canAutoSign env tx s))) = fetched (trace s)
  ∧ signingPopups (trace (snd (WaxJS.canAutoSign env tx s)))
    = signingPopups (trace s).
Proof.
  destruct tx as [actions|bytes].
  - by rewrite canAutoSign_actions.
  - rewrite canAutoSign_serialized. destruct (api s); [|done].
    destruct (deserializeTransactionWithActions env _ _) as [actions|e].
    + rewrite canAutoSign_actions. cbn.
      rewrite fetched_app, signingPopups_app. cbn. by rewrite !app_nil_r.
    + cbn. rewrite fetched_app, signingPopups_app. cbn. by rewrite !app_nil_r.
Qed.

(** The endpoint path makes one request, whatever comes of it. *)
Lemma signViaEndpoint_trace (env : Env) (req : SigningRequest) (s : State) :
  trace (snd (WaxJS.signViaEndpoint env req s))
  = trace s ++ [EvFetch (waxAutoSigningURL s +:+ "signing") "POST" (Some req)].
Proof.
  unfold WaxJS.signViaEndpoint. run.
  destruct (fetch env _ _ _ _) as [e|ok st txt [d|e]]; cbn; try done;
    destruct ok; cbn; try done.
  destruct (WaxJS.hasExcept d); cbn; [done|].
  pose proof (receiveSignatures_trace d
    (log (EvFetch (waxAutoSigningURL s +:+ "signing") "POST" (Some req)) s))
    as Ht.
  by destruct (WaxJS.receiveSignatures d _) as [[r|e] s2].
Qed.

Lemma signViaWindow_fetched (env : Env) (w : option Window)
    (req : SigningRequest) (s : State) :
  fetched (trace (snd (WaxJS.signViaWindow env w req s))) = fetched (trace s).
Proof.
  rewrite signViaWindow_run. cbn zeta.
  destruct (openEventSource env _ _ _ _) as [win|e]; cbn.
  - destruct (onceEventDelivers env _ _ _) as [d|e]; cbn.
    + rewrite receiveSignatures_trace. cbn.
      rewrite !fetched_app. cbn. by rewrite !app_nil_r.
    + rewrite !fetched_app. cbn. by rewrite !app_nil_r.
  - rewrite fetched_app. cbn. by rewrite app_nil_r.
Qed.

(** The router, step by step. *)
Lemma signing_run (env : Env) (req : SigningRequest) (s : State) :
  WaxJS.signing env req s
  = match WaxJS.canAutoSign env (transaction req) s with
    | (Ok true, s1) =>
        match WaxJS.signViaEndpoint env req s1 with
        | (Ok r, s2) => (Ok r, s2)
        | (Err _, s2) => WaxJS.signViaWindow env None req s2
        end
    | (Ok false, s1) => WaxJS.signViaWindow env (signingWindow s1) req s1
    | (Err e, s1) => (Err e, s1)
    end.
Proof.
  unfold WaxJS.signing. unfold mbind at 1. unfold M_bind at 1.
  by destruct (WaxJS.canAutoSign env (transaction req) s) as [[[|]|e] s1].
Qed.

(** The calls of one signing. When [canAutoSign] throws there is no request
    and no popup. When it answers false there is no request, and one popup,
    with the cached window. When it answers true there is one request to
    the signing endpoint; a popup follows, without a window, only when the
    endpoint path has failed. There is never a second request or a second
    popup. *)
Theorem signing_calls (env : Env) (req : SigningRequest) (s : State) :
  let s' := snd (WaxJS.signing env req s) in
  match WaxJS.canAutoSign env (transaction req) s with
  | (Err _, _) =>
      fetched (trace s') = fetched (trace s)
      ∧ signingPopups (trace s') = signingPopups (trace s)
  | (Ok false, _) =>
      fetched (trace s') = fetched (trace s)
      ∧ signingPopups (trace s') = signingPopups (trace s) ++ [signingWindow s]
  | (Ok true, s1) =>
      fetched (trace s')
      = fetched (trace s) ++ [waxAutoSigningURL s +:+ "signing"]
      ∧ signingPopups (trace s')
        = signingPopups (trace s)
          ++ match fst (WaxJS.signViaEndpoint env req s1) with
             | Ok _ => []
             | Err _ => [None]
             end
  end.
Proof.
  cbn zeta. rewrite signing_run.
  destruct (canAutoSign_quiet env (transaction req) s) as [Hf Hp].
  pose proof (preserves_canAutoSign session ltac:(done) env
                (transaction req) s) as Hs.
  destruct (WaxJS.canAutoSign env (transaction req) s) as [[[|]|e] s1];
    cbn in Hf, Hp, Hs; cbn.
  - pose proof (signViaEndpoint_trace env req s1) as Ht.
    assert (waxAutoSigningURL s1 = waxAutoSigningURL s) as Hu
      by (by injection Hs).
    destruct (WaxJS.signViaEndpoint env req s1) as [[r|e] s2]; cbn in Ht; cbn.
    + rewrite Ht, fetched_app, signingPopups_app, Hf, Hp, Hu. cbn.
      by rewrite app_nil_r.
    + rewrite signViaWindow_fetched, signViaWindow_popups.
      rewrite Ht, fetched_app, signingPopups_app, Hf, Hp, Hu. cbn.
      by rewrite app_nil_r.
  - rewrite signViaWindow_fetched, signViaWindow_popups, Hf, Hp.
    assert (signingWindow s1 = signingWindow s) as ->
      by (by injection Hs).
    done.
  - done.
Qed.

(** When the body of the endpoint's answer is accepted by
    [receiveSignatures], signing returns what the handler returns, and no
    popup is asked for. *)
Theorem signing_endpoint_accepts (env : Env) (req : SigningRequest)
    (s s1 s2 : State) (status : Z) (statusText : string) (d : EventData)
    (r : SignResponse) :
  let url := waxAutoSigningURL s1 +:+ "signing" in
  WaxJS.canAutoSign env (transaction req) s = (Ok true, s1) →
  fetch env (trace s1) url "POST" (Some req)
  = FetchResponse true status statusText (Ok d) →
  WaxJS.hasExcept d = false →
  WaxJS.receiveSignatures d (log (EvFetch url "POST" (Some req)) s1)
  = (Ok r, s2) →
  WaxJS.signing env req s = (Ok r, s2)
  ∧ signingPopups (trace s2) = signingPopups (trace s1).
Proof.
  cbn zeta. intros Hc Hf Hx Hr.
  assert (WaxJS.signViaEndpoint env req s1 = (Ok r, s2)) as He.
  { unfold WaxJS.signViaEndpoint. run. rewrite Hf. cbn. rewrite Hx. cbn.
    by rewrite Hr. }
  split.
  - by rewrite signing_run, Hc, He.
  - pose proof (signViaEndpoint_trace env req s1) as Ht.
    rewrite He in Ht. cbn in Ht. rewrite Ht, signingPopups_app. cbn.
    by rewrite app_nil_r.
Qed.

Lemma signing_endpoint_accepts_witness :
  WaxJS.signing acceptingEnv dappRequest dappSession
  = (Ok (Signed ["SIG1"] [1; 2; 3]%Z),
     snd (WaxJS.signing acceptingEnv dappRequest dappSession))
  ∧ signingPopups
      (trace (snd (WaxJS.signing acceptingEnv dappRequest dappSession)))
    = signingPopups (trace dappSession).
Proof.
  apply (signing_endpoint_accepts acceptingEnv dappRequest dappSession
           dappSession
           (snd (WaxJS.signing acceptingEnv dappRequest dappSession))
           200 "OK" acceptingData (Signed ["SIG1"] [1; 2; 3]%Z));
    reflexivity.
Defined.



(** ** The interceptor of [transact] *)





(** ** [sign], when something fails *)

Lemma sign_run (env : Env) (data : nat) (s : State)
    (d : SignatureProviderArgs) (bytes : list Z) :
  heap s !! data = Some d → Args.serializedTransaction d = Some bytes →
  WaxJS.sign env data s
  = match WaxJS.signing env
            (mkRequest (TxSerialized bytes) (bool_decide (apiSigner s = None)))
            s with
    | (Err e, s1) => (Err e, s1)
    | (Ok Empty, s1) =>
        (Err (TypeError "signatures is not iterable"),
         set_heap (<[data := Args.mk (Args.chainId d) (Args.requiredKeys d)
                               None]> (heap s1)) s1)
    | (Ok (Signed sigs tx), s1) =>
        let d' := Args.mk (Args.chainId d) (Args.requiredKeys d) (Some tx) in
        let s2 := set_heap (<[data := d']> (heap s1)) s1 in
        match apiSigner s1 with
        | None => (Ok (tx, sigs), s2)
        | Some p =>
            (match signerSign p d' with
             | Ok more => Ok (tx, sigs ++ default [] more)
             | Err e => Err e
             end, log (EvSignerSign d') s2)
        end
    end.
Proof.
  intros Hd Hb. unfold WaxJS.sign. unfold mbind at 1. unfold M_bind at 1.
  unfold gets at 1. rewrite Hd, Hb.
  unfold mbind at 1. unfold M_bind at 1. unfold gets at 1.
  unfold mbind at 1. unfold M_bind at 1.
  replace (negb (bool_decide (is_Some (apiSigner s))))
    with (bool_decide (apiSigner s = None))
    by (destruct (apiSigner s); done).
  destruct (WaxJS.signing env _ s) as [[[sigs tx|]|e] s1]; run; try done.
  destruct (apiSigner s1) as [p|]; run; [|done].
  rewrite lookup_insert_eq. by destruct (signerSign p _).
Qed.

(** When the router fails, [sign] fails with the router's error: the
    request object is as the caller gave it and the co-signer has not been
    asked. *)
Theorem sign_router_error (env : Env) (data : nat) (s s1 : State)
    (d : SignatureProviderArgs) (bytes : list Z) (e : Error) :
  heap s !! data = Some d → Args.serializedTransaction d = Some bytes →
  WaxJS.signing env
    (mkRequest (TxSerialized bytes) (bool_decide (apiSigner s = None))) s
  = (Err e, s1) →
  WaxJS.sign env data s = (Err e, s1) ∧ heap s1 !! data = Some d.
Proof.
  intros Hd Hb Hr. rewrite (sign_run env data s d bytes Hd Hb), Hr.
  split; [done|].
  pose proof (keeps_signing env
    (mkRequest (TxSerialized bytes) (bool_decide (apiSigner s = None))) s)
    as [_ Hh].
  rewrite Hr in Hh. cbn in Hh. by rewrite Hh.
Qed.

Lemma sign_router_error_witness :
  WaxJS.sign garbledEnv 0 cosignedSession
  = (Err SigningDeclined,
     snd (WaxJS.signing garbledEnv (mkRequest (TxSerialized [9; 9]%Z) false)
            cosignedSession))
  ∧ heap (snd (WaxJS.signing garbledEnv
                 (mkRequest (TxSerialized [9; 9]%Z) false) cosignedSession))
      !! 0
    = Some (Args.mk "chain" ["PUB_K1"; "PUB_K2"] (Some [9; 9]%Z)).
Proof.
  apply (sign_router_error garbledEnv 0 cosignedSession _ _ [9; 9]%Z
           SigningDeclined); vm_compute; reflexivity.
Defined.

(** When the co-signer throws, [sign] fails with the co-signer's error, and
    the request object keeps the transaction the wallet signed: the write
    is not undone. *)
Theorem sign_cosigner_error (env : Env) (data : nat) (s s1 : State)
    (d : SignatureProviderArgs) (bytes : list Z) (p : SignatureProvider)
    (sigs : list string) (tx : list Z) (e : Error) :
  let d' := Args.mk (Args.chainId d) (Args.requiredKeys d) (Some tx) in
  heap s !! data = Some d → Args.serializedTransaction d = Some bytes →
  apiSigner s = Some p →
  WaxJS.signing env (mkRequest (TxSerialized bytes) false) s
  = (Ok (Signed sigs tx), s1) →
  signerSign p d' = Err e →
  fst (WaxJS.sign env data s) = Err e
  ∧ heap (snd (WaxJS.sign env data s)) !! data = Some d'.
Proof.
  cbn zeta. intros Hd Hb Hp Hr He.
  rewrite (sign_run env data s d bytes Hd Hb), Hp.
  rewrite bool_decide_eq_false_2 by done. rewrite Hr.
  pose proof (keeps_signing env (mkRequest (TxSerialized bytes) false) s)
    as [Hs _].
  rewrite Hr in Hs. cbn in Hs. cbn zeta. rewrite Hs, Hp, He. cbn.
  by rewrite lookup_insert_eq.
Qed.

Lemma sign_cosigner_error_witness :
  fst (WaxJS.sign acceptingEnv 0 refusedSession)
  = Err (ExternalError "refused")
  ∧ heap (snd (WaxJS.sign acceptingEnv 0 refusedSession)) !! 0
    = Some (Args.mk "chain" ["PUB_K1"; "PUB_K2"] (Some [1; 2; 3]%Z)).
Proof.
  apply (sign_cosigner_error acceptingEnv 0 refusedSession
           (snd (WaxJS.signing acceptingEnv
                   (mkRequest (TxSerialized [9; 9]%Z) false) refusedSession))
           (Args.mk "chain" ["PUB_K1"; "PUB_K2"] (Some [9; 9]%Z)) [9; 9]%Z
           refusingCosigner ["SIG1"] [1; 2; 3]%Z (ExternalError "refused"));
    vm_compute; reflexivity.
Defined.

(** When the router returns the empty result of a handshake, [sign] clears
    the transaction of the request object and fails with a type error; the
    co-signer is not asked. *)
Theorem sign_handshake (env : Env) (data : nat) (s s1 : State)
    (d : SignatureProviderArgs) (bytes : list Z) :
  heap s !! data = Some d → Args.serializedTransaction d = Some bytes →
  WaxJS.signing env
    (mkRequest (TxSerialized bytes) (bool_decide (apiSigner s = None))) s
  = (Ok Empty, s1) →
  fst (WaxJS.sign env data s) = Err (TypeError "signatures is not iterable")
  ∧ heap (snd (WaxJS.sign env data s)) !! data
    = Some (Args.mk (Args.chainId d) (Args.requiredKeys d) None)
  ∧ trace (snd (WaxJS.sign env data s)) = trace s1.
Proof.
  intros Hd Hb Hr. rewrite (sign_run env data s d bytes Hd Hb), Hr. cbn.
  by rewrite lookup_insert_eq.
Qed.

Lemma sign_handshake_witness :
  fst (WaxJS.sign readyEnv 0 guardedSession)
  = Err (TypeError "signatures is not iterable")
  ∧ heap (snd (WaxJS.sign readyEnv 0 guardedSession)) !! 0
    = Some (Args.mk "chain" ["PUB_K1"] None)
  ∧ trace (snd (WaxJS.sign readyEnv 0 guardedSession))
    = trace (snd (WaxJS.signing readyEnv
                    (mkRequest (TxSerialized [9; 9]%Z) true)
                    guardedSession)).
Proof.
  apply (sign_handshake readyEnv 0 guardedSession
           (snd (WaxJS.signing readyEnv
                   (mkRequest (TxSerialized [9; 9]%Z) true)
                   guardedSession))
           (Args.mk "chain" ["PUB_K1"] (Some [9; 9]%Z)) [9; 9]%Z);
    vm_compute; reflexivity.
Defined.

(** ** The login receiver and the constructor *)



Lemma loginViaEndpoint_trace (env : Env) (s : State) :
  trace (snd (WaxJS.loginViaEndpoint env s))
  = trace s ++ [EvFetch (waxAutoSigningURL s +:+ "login") "get" None].
Proof.
  unfold WaxJS.loginViaEndpoint. run.
  destruct (fetch env _ _ _ _) as [e|ok st txt [d|e]]; cbn; try done;
    destruct ok; cbn; try done.
  destruct (WaxJS.hasExcept d); cbn; [done|].
  by rewrite receiveLogin_trace.
Qed.

(** The calls of the constructor: none when it is given an account and an
    array of keys, or when auto-login is switched off; otherwise the one
    request to the login endpoint, at the configured address or the default
    one. It never opens a window. *)
Theorem constructor_calls (env : Env) (cfg : Config.t) :
  trace (WaxJS.constructor env cfg)
  = if WaxJS.hasSession (Config.userAccount cfg) (Config.pubKeys cfg)
         || negb (default true (Config.tryAutoLogin cfg))
    then []
    else [EvFetch
            (default "https://api-idm.wax.io/v1/accounts/auto-accept/"
               (Config.waxAutoSigningURL cfg) +:+ "login") "get" None].
Proof.
  unfold WaxJS.constructor.
  destruct (WaxJS.hasSession _ _); cbn [orb].
  - by rewrite receiveLogin_trace.
  - destruct (default true (Config.tryAutoLogin cfg)); cbn [negb]; [|done].
    by rewrite loginViaEndpoint_trace.
Qed.

(** A session handed to the constructor starts with the account and the
    keys given, an empty whitelist, and the string undefined stored under
    autoLogin: no transaction with an action can be signed unattended
    before a response has brought a whitelist. *)
Theorem constructor_direct (env env' : Env) (cfg : Config.t) (a : Action)
    (l : list Action) :
  WaxJS.hasSession (Config.userAccount cfg) (Config.pubKeys cfg) = true →
  let s := WaxJS.constructor env cfg in
  userAccount s = Config.userAccount cfg
  ∧ pubKeys s = Config.pubKeys cfg
  ∧ whitelistedContracts s = Some []
  ∧ localStorage s !! "autoLogin" = Some "undefined"
  ∧ fst (WaxJS.canAutoSign env' (TxActions (a :: l)) s) = Ok false.
Proof.
  intros Hs. cbn zeta. unfold WaxJS.constructor. rewrite Hs.
  unfold WaxJS.hasSession in Hs.
  destruct (Config.userAccount cfg) as [u|]; [|done].
  destruct (Config.pubKeys cfg) as [k|]; [|by rewrite andb_false_r in Hs].
  rewrite (receiveLogin_Ok _ _ u k) by done. cbn [snd].
  split; [done|]. split; [done|]. split; [done|].
  split; [apply lookup_insert_eq|].
  rewrite canAutoSign_actions. cbn. by rewrite isWhitelisted_reads.
Qed.

Lemma constructor_direct_witness :
  let s := WaxJS.constructor offlineEnv
             (Config.mk "https://rpc" None (Some "alice") (Some ["PUB_K1"])
                None None None) in
  userAccount s = Some "alice"
  ∧ pubKeys s = Some ["PUB_K1"]
  ∧ whitelistedContracts s = Some []
  ∧ localStorage s !! "autoLogin" = Some "undefined"
  ∧ fst (WaxJS.canAutoSign acceptingEnv
           (TxActions [mkAction "dapp" "play" ∅]) s) = Ok false.
Proof.
  apply (constructor_direct offlineEnv acceptingEnv
           (Config.mk "https://rpc" None (Some "alice") (Some ["PUB_K1"])
              None None None) (mkAction "dapp" "play" ∅) []).
  reflexivity.
Defined.
